(** * Session-scoped conversation engine of the emotional-support chatbot

    A shallow embedding of [domain/prompts.py], [domain/session_manager.py],
    [domain/chatbot.py] and the summary endpoint of [services/main.py],
    followed by the properties of the engine stated in the design document.

    Conventions.
    - A Python [str] is a [string]; texts with accents are the UTF-8 bytes
      of the source file.  The built-in [str] methods the code calls
      ([split], [lower], [capitalize], [strip]) form the interface [PyStr];
      [ascii_str] implements it the way CPython does on ASCII text.
    - A Python exception is a value of [exn]; code that may raise returns
      an [outcome].
    - The [SessionManager] object is threaded explicitly ([State]); the
      asynchronous generator [stream_response] additionally accumulates
      the fragments it yields ([Gen]).
    - The objects of the [langchain] library (window memory, retrieval
      chain, LLM chain) and the [uuid] and SMTP calls are not part of the
      repository: the memory, the way a chain streams and saves, and the
      UUID are modelled after the libraries; what the backends, the SMTP
      server and the codecs answer is an input of the functions that call
      them. *)

From Stdlib Require Import Ascii String List Bool Arith NArith Lia.
From stdpp Require Import base option list strings gmap.

Open Scope string_scope.

(* ===================================================================== *)
(** ** Exceptions *)
(* ===================================================================== *)

(** The errors of the code and of the libraries it calls: all of them
    derive from Python's [Exception], so [except Exception] catches every
    one.  What does not derive from it ([asyncio.CancelledError],
    [GeneratorExit]) is the consumer giving up a generator; it is outside
    the model, in which every generator is read to its end. *)
Inductive exn : Type :=
| Exception (msg : string)
| IndexError
| KeyError (key : string)
| HTTPException (status_code : nat) (detail : string).

Inductive outcome (A : Type) : Type :=
| Return (a : A)
| Raise (e : exn).
Arguments Return {A} a.
Arguments Raise {A} e.

(** [l[i]] on a Python list. *)
Definition getitem {A} (l : list A) (i : nat) : outcome A :=
  match l !! i with
  | Some x => Return x
  | None => Raise IndexError
  end.

(* ===================================================================== *)
(** ** Built-in [str] methods *)
(* ===================================================================== *)

(** The methods of [str] used by the repository.  The two laws are the
    facts about CPython's implementation that the code relies on:
    [s.split()] never produces an empty token, and capitalising a
    non-empty string gives a non-empty string. *)
Class PyStr : Type := {
  str_split : string -> list string;
  str_lower : string -> string;
  str_capitalize : string -> string;
  str_strip : string -> string;
  str_split_nonempty : forall s t, In t (str_split s) -> t <> "";
  str_capitalize_nonempty : forall s, s <> "" -> str_capitalize s <> ""
}.

(** Truth value of a [str] and of an [Optional[str]]. *)
Definition str_truthy (s : string) : bool :=
  match s with
  | EmptyString => false
  | String _ _ => true
  end.

Definition opt_truthy (o : option string) : bool :=
  match o with
  | Some s => str_truthy s
  | None => false
  end.

(** *** The ASCII implementation *)

Module AsciiStr.

(** [str.isspace] on ASCII: TAB, LF, VT, FF, CR, FS, GS, RS, US, SPACE. *)
Definition isspace (c : ascii) : bool :=
  let n := nat_of_ascii c in
  ((9 <=? n)%nat && (n <=? 13)%nat) || ((28 <=? n)%nat && (n <=? 32)%nat).

Definition lower_char (c : ascii) : ascii :=
  let n := nat_of_ascii c in
  if (65 <=? n)%nat && (n <=? 90)%nat then ascii_of_nat (n + 32) else c.

Definition upper_char (c : ascii) : ascii :=
  let n := nat_of_ascii c in
  if (97 <=? n)%nat && (n <=? 122)%nat then ascii_of_nat (n - 32) else c.

Fixpoint lower (s : string) : string :=
  match s with
  | EmptyString => EmptyString
  | String c s' => String (lower_char c) (lower s')
  end.

Definition capitalize (s : string) : string :=
  match s with
  | EmptyString => EmptyString
  | String c s' => String (upper_char c) (lower s')
  end.

(** A finished token is kept only when it is not empty. *)
Definition emit (tok : string) : list string :=
  match tok with
  | EmptyString => []
  | String _ _ => [tok]
  end.

(** [split_from tok s]: [tok] is the token read so far. *)
Fixpoint split_from (tok : string) (s : string) : list string :=
  match s with
  | EmptyString => emit tok
  | String c s' =>
      if isspace c then emit tok ++ split_from EmptyString s'
      else split_from (tok ++ String c EmptyString) s'
  end.

Definition split (s : string) : list string := split_from EmptyString s.

Fixpoint lstrip (s : string) : string :=
  match s with
  | EmptyString => EmptyString
  | String c s' => if isspace c then lstrip s' else s
  end.

Definition strip (s : string) : string :=
  String.rev (lstrip (String.rev (lstrip s))).

End AsciiStr.



(* ===================================================================== *)
(** ** [domain/prompts.py] *)
(* ===================================================================== *)

Definition GREETING_MESSAGES : gmap string string :=
  <["welcome" := "¡Hola {nombre}! ¿En qué puedo ayudarte hoy?"]>
  (<["welcome_generic" := "¡Hola! ¿En qué puedo ayudarte hoy?"]>
  (<["ask_name" := "¡Hola! Antes de comenzar, ¿cuál es tu nombre?"]> ∅)).

(** [d.get(key, default)] *)
Definition dict_get {V} (d : gmap string V) (key : string) (default : V) : V :=
  match d !! key with
  | Some v => v
  | None => default
  end.

Definition palabras_clave : list string := ["soy"; "llamo"; "es"; "nombre"].

Section Prompts.
Context {py : PyStr}.

(** [palabra.lower() in palabras_clave] *)
Definition is_keyword (palabra : string) : bool :=
  bool_decide (str_lower palabra ∈ palabras_clave).

(** The [for i, palabra in enumerate(palabras)] loop, entered at index
    [i] with [rest] the tokens from [i] on. *)
Fixpoint detect_loop (palabras : list string) (i : nat) (rest : list string)
  : outcome (option string) :=
  match rest with
  | [] => Return None
  | palabra :: rest' =>
      if is_keyword palabra && (i + 1 <? length palabras)%nat
      then match getitem palabras (i + 1) with
           | Return nxt => Return (Some (str_capitalize nxt))
           | Raise e => Raise e
           end
      else detect_loop palabras (i + 1) rest'
  end.

Definition detect_name_from_input (user_input : string) : outcome (option string) :=
  let palabras := str_split user_input in
  detect_loop palabras 0 palabras.

End Prompts.

(* ===================================================================== *)
(** ** Library objects held by a session *)
(* ===================================================================== *)

(** [uuid.uuid4()] and [str()] of it, from the 16 random bytes [rand] the
    standard library draws: version and variant bits are forced and the
    128-bit value is printed as 8-4-4-4-12 lower-case hexadecimal digits. *)
Module UUID.

Definition hex_digit (d : N) : ascii :=
  if (d <? 10)%N then ascii_of_N (48 + d) else ascii_of_N (87 + d).

(** The [count] lowest hexadecimal digits of [n], most significant first. *)
Fixpoint hex (count : nat) (n : N) : string :=
  match count with
  | O => EmptyString
  | S count' => hex count' (N.shiftr n 4) ++ String (hex_digit (N.land n 15)) EmptyString
  end.

Definition uuid4 (rand : N) : N :=
  let int := N.land rand (N.ones 128) in
  let int := N.ldiff int (N.shiftl 49152 48) in
  let int := N.lor int (N.shiftl 32768 48) in
  let int := N.ldiff int (N.shiftl 61440 64) in
  N.lor int (N.shiftl 4 76).

Definition str (int : N) : string :=
  hex 8 (N.shiftr int 96) ++ "-" ++ hex 4 (N.shiftr int 80) ++ "-" ++
  hex 4 (N.shiftr int 64) ++ "-" ++ hex 4 (N.shiftr int 48) ++ "-" ++
  hex 12 int.

(** The bits of the random bytes that [uuid4] keeps: all 128 but the two
    of the variant and the four of the version, that is 122 bits. *)
Definition random_bits : N :=
  N.ldiff (N.ones 128) (N.lor (N.shiftl 49152 48) (N.shiftl 61440 64)).

(** The bits that [uuid4] sets whatever the random bytes are. *)
Definition fixed_bits : N := N.lor (N.shiftl 32768 48) (N.shiftl 4 76).

End UUID.

(** The part of [langchain]'s window memory that the repository touches.
    The class keeps every message in [chat_memory.messages];
    [save_context] appends the human and the AI message of a finished
    chain run, and the window [k] is applied only when the memory is read
    through [buffer] (what the chain puts into the prompt):
    [messages[-k * 2:] if k > 0 else []]. *)
Module LangChain.

Inductive BaseMessage : Type :=
| HumanMessage (content : string)
| AIMessage (content : string).

Definition type (msg : BaseMessage) : string :=
  match msg with
  | HumanMessage _ => "human"
  | AIMessage _ => "ai"
  end.

Definition content (msg : BaseMessage) : string :=
  match msg with
  | HumanMessage c => c
  | AIMessage c => c
  end.

Record ConversationBufferWindowMemory : Type := {
  k : nat;
  ai_prefix : string;
  human_prefix : string;
  memory_key : string;
  return_messages : bool;
  chat_memory : list BaseMessage
}.

Definition save_context (input output : string)
    (m : ConversationBufferWindowMemory) : ConversationBufferWindowMemory :=
  {| k := k m; ai_prefix := ai_prefix m; human_prefix := human_prefix m;
     memory_key := memory_key m; return_messages := return_messages m;
     chat_memory := chat_memory m ++ [HumanMessage input; AIMessage output] |}.

Definition buffer (m : ConversationBufferWindowMemory) : list BaseMessage :=
  if (0 <? k m)%nat
  then drop (length (chat_memory m) - k m * 2) (chat_memory m)
  else [].

End LangChain.

(* ===================================================================== *)
(** ** [domain/session_manager.py] *)
(* ===================================================================== *)

(** The dictionary stored per session id. *)
Module Session.

Record t : Type := {
  memory : LangChain.ConversationBufferWindowMemory;
  name : option string;
  greeted : bool
}.

Definition set_memory (f : LangChain.ConversationBufferWindowMemory ->
                           LangChain.ConversationBufferWindowMemory) (s : t) : t :=
  {| memory := f (memory s); name := name s; greeted := greeted s |}.

Definition set_name (v : option string) (s : t) : t :=
  {| memory := memory s; name := v; greeted := greeted s |}.

Definition set_greeted (v : bool) (s : t) : t :=
  {| memory := memory s; name := name s; greeted := v |}.

End Session.

Record SessionManager : Type := {
  sessions : gmap string Session.t
}.

(** [SessionManager()] *)
Definition SessionManager_init : SessionManager := {| sessions := ∅ |}.

(** One entry of the list returned by [get_history]. *)
Record ChatEntry : Type := {
  role : string;
  content : string
}.

(** A method of the manager: reads and updates [self]. *)
Definition State (A : Type) : Type := SessionManager -> A * SessionManager.

Definition st_ret {A} (a : A) : State A := fun self => (a, self).

Definition st_bind {A B} (m : State A) (f : A -> State B) : State B :=
  fun self => let (a, self') := m self in f a self'.

(** A method that only reads [self]. *)
Definition st_read {A} (f : SessionManager -> A) : State A :=
  fun self => (f self, self).

Declare Scope state_scope.
Delimit Scope state_scope with st.
Bind Scope state_scope with State.
Notation "x <- m ;; k" := (st_bind m (fun x => k))
  (at level 100, m at next level, right associativity) : state_scope.
Notation "m ;; k" := (st_bind m (fun _ => k))
  (at level 100, right associativity) : state_scope.

(** [session[key] = v] on the dictionary stored under [session_id]: the
    dictionary returned by [_get_or_create_session] is the stored one, so
    the assignment is an update in place of the store. *)
Definition session_setitem (session_id : string) (f : Session.t -> Session.t) : State unit :=
  fun self => (tt, {| sessions := alter f session_id (sessions self) |}).

Definition new_memory : LangChain.ConversationBufferWindowMemory :=
  {| LangChain.k := 4;
     LangChain.ai_prefix := "Asistente";
     LangChain.human_prefix := "Usuario";
     LangChain.memory_key := "chat_history";
     LangChain.return_messages := true;
     LangChain.chat_memory := [] |}.

Definition new_session : Session.t :=
  {| Session.memory := new_memory; Session.name := None; Session.greeted := false |}.

(** [str(uuid.uuid4())] is drawn from [rand] only when it is needed. *)
Definition get_or_create_session_id (rand : N) (session_id : option string) : string :=
  match session_id with
  | Some s => if str_truthy s then s else UUID.str (UUID.uuid4 rand)
  | None => UUID.str (UUID.uuid4 rand)
  end.

Definition _get_or_create_session (session_id : string) : State Session.t :=
  fun self =>
    match sessions self !! session_id with
    | Some session => (session, self)
    | None => (new_session, {| sessions := <[session_id := new_session]> (sessions self) |})
    end.

Definition get_or_create_memory (session_id : string)
  : State LangChain.ConversationBufferWindowMemory :=
  (session <- _get_or_create_session session_id ;;
   st_ret (Session.memory session))%st.

(** [self.sessions.pop(session_id, None)] *)
Definition clear_session (session_id : string) : State unit :=
  fun self => (tt, {| sessions := delete session_id (sessions self) |}).

Definition save_name (session_id : string) (name : string) : State unit :=
  (_get_or_create_session session_id ;;
   session_setitem session_id (Session.set_name (Some name)))%st.

Definition get_name (session_id : string) : State (option string) :=
  st_read (fun self =>
    match sessions self !! session_id with
    | Some session => Session.name session
    | None => None
    end).

Definition has_name (session_id : string) : State bool :=
  st_read (fun self =>
    match sessions self !! session_id with
    | Some session => bool_decide (Session.name session <> None)
    | None => false
    end).

Definition has_greeted (session_id : string) : State bool :=
  st_read (fun self =>
    match sessions self !! session_id with
    | Some session => Session.greeted session
    | None => false
    end).

Definition mark_as_greeted (session_id : string) : State unit :=
  (_get_or_create_session session_id ;;
   session_setitem session_id (Session.set_greeted true))%st.

(** The loop of [get_history] over [memory.chat_memory.messages]; every
    message class of the library has a [content] attribute. *)
Definition format_message (msg : LangChain.BaseMessage) : ChatEntry :=
  {| role := if String.eqb (LangChain.type msg) "human" then "user" else "assistant";
     content := LangChain.content msg |}.

Definition get_history (session_id : string) : State (option (list ChatEntry)) :=
  st_read (fun self =>
    match sessions self !! session_id with
    | None => None
    | Some session =>
        let memory := Session.memory session in
        let messages := LangChain.chat_memory memory in
        Some (map format_message messages)
    end).

(* ===================================================================== *)
(** ** Generators over the session manager *)
(* ===================================================================== *)

(** What running a generator to its end leaves behind: the fragments it
    yielded, in order, the session manager, and how it ended.  Fragments
    already yielded and updates already made stay when an exception is
    raised afterwards. *)
Record trace (A : Type) : Type := {
  yielded : list string;
  self_after : SessionManager;
  result : outcome A
}.
Arguments yielded {A} _.
Arguments self_after {A} _.
Arguments result {A} _.

Definition Gen (A : Type) : Type := SessionManager -> trace A.

Definition gen_ret {A} (a : A) : Gen A :=
  fun self => {| yielded := []; self_after := self; result := Return a |}.

Definition gen_bind {A B} (m : Gen A) (f : A -> Gen B) : Gen B :=
  fun self =>
    let r := m self in
    match result r with
    | Return a =>
        let r' := f a (self_after r) in
        {| yielded := yielded r ++ yielded r';
           self_after := self_after r';
           result := result r' |}
    | Raise e =>
        {| yielded := yielded r; self_after := self_after r; result := Raise e |}
    end.

(** [yield fragment] *)
Definition yield (fragment : string) : Gen unit :=
  fun self => {| yielded := [fragment]; self_after := self; result := Return tt |}.

(** [raise e] *)
Definition raise {A} (e : exn) : Gen A :=
  fun self => {| yielded := []; self_after := self; result := Raise e |}.

(** A call of a method of [self.session_manager]. *)
Definition call {A} (m : State A) : Gen A :=
  fun self => let (a, self') := m self in
              {| yielded := []; self_after := self'; result := Return a |}.

(** A call of a function that touches neither the manager nor the stream. *)
Definition eval {A} (o : outcome A) : Gen A :=
  fun self => {| yielded := []; self_after := self; result := o |}.

(** [try: body  except Exception as e: handler e] *)
Definition try_except {A} (body : Gen A) (handler : exn -> Gen A) : Gen A :=
  fun self =>
    let r := body self in
    match result r with
    | Return a => r
    | Raise e =>
        let r' := handler e (self_after r) in
        {| yielded := yielded r ++ yielded r';
           self_after := self_after r';
           result := result r' |}
    end.

Declare Scope gen_scope.
Delimit Scope gen_scope with gen.
Bind Scope gen_scope with Gen.
Notation "x <- m ;; k" := (gen_bind m (fun x => k))
  (at level 100, m at next level, right associativity) : gen_scope.
Notation "m ;; k" := (gen_bind m (fun _ => k))
  (at level 100, right associativity) : gen_scope.

(* ===================================================================== *)
(** ** [domain/chatbot.py] *)
(* ===================================================================== *)

(** A dictionary produced by the chain's stream; the code reads its
    ["answer"] entry only. *)
Abbreviation chunk := (gmap string string).

(** One run of [qa_chain.astream({"question": user_input})], as the
    retrieval and model backends make it turn out.  A [langchain] chain
    streams by calling itself once: the call raises, and then nothing is
    produced, or it returns its outputs, and then the stream produces
    that one dictionary. *)
Inductive chain_run : Type :=
| ChainRaises (e : exn)
| ChainReturns (answer : string).

(** The dictionaries the stream of a run produces.  The outputs of the
    chain also hold the question and the chat history, which
    [stream_response] does not read. *)
Definition produced (chain : chain_run) : list chunk :=
  match chain with
  | ChainRaises _ => []
  | ChainReturns answer => [ {[ "answer" := answer ]} ]
  end.

(** The exception with which the run breaks off, if any. *)
Definition failure (chain : chain_run) : option exn :=
  match chain with
  | ChainRaises e => Some e
  | ChainReturns _ => None
  end.

(** [async for chunk in items: body chunk] *)
Fixpoint async_for (items : list chunk) (body : chunk -> Gen unit) : Gen unit :=
  match items with
  | [] => gen_ret tt
  | chunk :: items' => (body chunk ;; async_for items' body)%gen
  end.

(** The answer of a finished run: what the stream delivered under
    ["answer"], in order. *)
Definition answer_text (items : list chunk) : string :=
  String.concat "" (map (fun chunk => dict_get chunk "answer" "") items).

(** The loop over the chain's stream.  The chain was built with
    [memory=memory], the object stored in the session: a call that raises
    has saved nothing; a call that returns has saved the question and the
    answer in the memory before the stream produces its dictionary. *)
Definition qa_chain_astream (chain : chain_run) (session_id question : string)
    (body : chunk -> Gen unit) : Gen unit :=
  match chain with
  | ChainRaises e => raise e
  | ChainReturns answer =>
      (call (session_setitem session_id
               (Session.set_memory (LangChain.save_context question answer))) ;;
       async_for (produced chain) body)%gen
  end.

Definition error_msg : string :=
  "Lo siento, ocurrió un error al procesar tu mensaje. Por favor, inténtalo de nuevo.".

Definition summary_fallback : string :=
  "No se pudo generar el resumen. Por favor, inténtalo de nuevo más tarde.".

Definition newline : string := String (ascii_of_nat 10) EmptyString.

(** [SUMMARY_PROMPT_TEMPLATE.format(chat_history=...)] of [prompts.py]:
    the text before the placeholder, the history, and the final newline. *)
Definition SUMMARY_PROMPT_HEAD : string :=
"
Eres un asistente terapéutico que ayuda a los usuarios a reflexionar sobre sus conversaciones. 
Tu tarea es generar un resumen claro y útil de la conversación, siguiendo este formato:

🔹 **Temas Principales**:
- [Lista de 2-3 temas clave discutidos]

💡 **Consejos Clave**:
- [2-3 consejos prácticos basados en la conversación]

✨ **Palabras Motivacionales**:
- [1-2 frases inspiradoras o de apoyo]

Instrucciones:
1. Sé conciso pero significativo.
2. Usa un tono cálido y empático.
3. Incluye solo información relevante.

Historial de la conversación:
".

Definition summary_prompt (chat_history : string) : string :=
  SUMMARY_PROMPT_HEAD ++ chat_history ++ newline.

Section Chatbot.
Context {py : PyStr}.

(** [stream_response]: [rand] are the random bytes a new session id is
    made of, [chain] is how the chain's run turns out (it is only run
    for a session that was greeted). *)
Definition stream_response (rand : N) (chain : chain_run)
    (user_input : string) (session_id : option string) : Gen unit :=
  try_except
    (let session_id := get_or_create_session_id rand session_id in
     was_greeted <- call (has_greeted session_id) ;;
     if negb was_greeted then
       name <- eval (detect_name_from_input user_input) ;;
       let greeting :=
         dict_get GREETING_MESSAGES "welcome_generic"
                  "¡Hola! ¿En qué puedo ayudarte hoy?" in
       let greeting :=
         if opt_truthy name
         then "¡Hola " ++ default "" name ++ "! ¿En qué puedo ayudarte hoy?"
         else greeting in
       call (mark_as_greeted session_id) ;;
       yield greeting
     else
       memory <- call (get_or_create_memory session_id) ;;
       qa_chain_astream chain session_id user_input
         (fun chunk =>
            let content := dict_get chunk "answer" "" in
            if str_truthy content then yield content else gen_ret tt))%gen
    (fun e => yield error_msg).

(** [generate_summary]: [llm] is the model backend called by
    [chain.run] with the rendered prompt. *)
Definition generate_summary (llm : string -> outcome string)
    (chat_history : list ChatEntry) : string :=
  let body :=
    let formatted_history :=
      String.concat newline
        (map (fun msg => str_capitalize (role msg) ++ ": " ++ content msg)
             chat_history) in
    match llm (summary_prompt formatted_history) with
    | Return summary => Return (str_strip summary)
    | Raise e => Raise e
    end in
  match body with
  | Return summary => summary
  | Raise e => summary_fallback
  end.

End Chatbot.

(* ===================================================================== *)
(** ** [services/email_service.py] and the summary endpoint of
       [services/main.py] *)
(* ===================================================================== *)

(** [smtp to_email summary_text] is the SMTP dialogue. *)
Definition send_summary_email (smtp : string -> string -> outcome unit)
    (to_email summary_text : string) : bool :=
  match smtp to_email summary_text with
  | Return _ => true
  | Raise _ => false
  end.

Record SummaryRequest : Type := {
  session_id : string;
  email : string
}.

(** The model backend held by the chatbot service. *)
Record ChatbotService : Type := {
  llm : string -> outcome string
}.

(** The dictionary [service_instances]: filled by [lifespan] when the
    application starts, emptied when it stops. *)
Record ServiceInstances : Type := {
  chatbot_service : option ChatbotService;
  session_manager : option SessionManager
}.

Definition lifespan_started (service : ChatbotService) (manager : SessionManager)
  : ServiceInstances :=
  {| chatbot_service := Some service; session_manager := Some manager |}.

Definition lifespan_stopped : ServiceInstances :=
  {| chatbot_service := None; session_manager := None |}.

(** [str(e)] *)
Definition exn_str (e : exn) : string :=
  match e with
  | Exception msg => msg
  | IndexError => "list index out of range"
  | KeyError key => "'" ++ key ++ "'"
  | HTTPException status_code detail => detail
  end.

(** Truth value of the [Optional[list]] returned by [get_history]. *)
Definition history_truthy (history : option (list ChatEntry)) : bool :=
  match history with
  | Some (_ :: _) => true
  | _ => false
  end.

Definition summary_sent : gmap string string :=
  {[ "message" := "Resumen enviado exitosamente" ]}.

Section Main.
Context {py : PyStr}.

Definition create_summary (service_instances : ServiceInstances)
    (smtp : string -> string -> outcome unit) (request : SummaryRequest)
  : outcome (gmap string string) :=
  let body :=
    match session_manager service_instances with
    | None => Raise (HTTPException 500 "Error interno del servidor")
    | Some session_manager =>
        let history := fst (get_history (session_id request) session_manager) in
        if negb (history_truthy history) then
          Raise (HTTPException 404 "No se encontró historial para la sesión")
        else
          match chatbot_service service_instances with
          | None => Raise (HTTPException 500 "Error interno del servidor")
          | Some chatbot_service =>
              let summary :=
                generate_summary (llm chatbot_service) (default [] history) in
              if negb (send_summary_email smtp (email request) summary) then
                Raise (HTTPException 500 "Error al enviar el correo")
              else Return summary_sent
          end
    end in
  match body with
  | Return response => Return response
  | Raise (HTTPException status_code detail) =>
      Raise (HTTPException status_code detail)
  | Raise e => Raise (HTTPException 500 (exn_str e))
  end.

End Main.

(* ===================================================================== *)
(** ** The chat endpoint of [services/main.py] *)
(* ===================================================================== *)

Definition dquote : string := String (ascii_of_nat 34) EmptyString.

(** [needle in haystack] on [str]. *)
Fixpoint str_contains (needle haystack : string) : bool :=
  match haystack with
  | EmptyString => String.prefix needle haystack
  | String _ rest => String.prefix needle haystack || str_contains needle rest
  end.

(** The request body of the chat endpoint. *)
Module ChatMessage.

Record t : Type := {
  user_input : string;
  session_id : option string
}.

End ChatMessage.

(** What the endpoint returns: the events of a streaming response are the
    strings its generator yields when it is read to the end. *)
Inductive Response : Type :=
| StreamingResponse (content : list string) (media_type : string)
                    (headers : gmap string string)
| JSONResponse (content : gmap string string) (headers : gmap string string).

(** Re-yield every fragment of [m] as [f fragment]:
    [async for chunk in m: yield f(chunk)]. *)
Definition yield_each {A} (f : string -> string) (m : Gen A) : Gen A :=
  fun self =>
    let r := m self in
    {| yielded := map f (yielded r); self_after := self_after r; result := result r |}.

Section ChatEndpoint.
Context {py : PyStr}.

(** [json.dumps] of a [str]: the JSON string literal, quotes included. *)
Variable json_dumps : string -> string.

(** [value.encode("latin-1")]: the bytes, or the [UnicodeEncodeError]
    for a text with a character outside latin-1. *)
Variable encode_latin1 : string -> outcome string.

(** The validator of [ChatMessage.user_input]; its [ValueError] is an
    [Exception] with the message. *)
Definition validate_user_input (v : string) : outcome string :=
  if negb (str_truthy v) || negb (str_truthy (str_strip v))
  then Raise (Exception "El mensaje no puede estar vacío")
  else Return (str_strip v).

(** [f"data: {json.dumps({key: value})}\n\n"] *)
Definition sse_event (key value : string) : string :=
  "data: {" ++ dquote ++ key ++ dquote ++ ": " ++ json_dumps value ++ "}"
  ++ newline ++ newline.

Definition generate_sse_events (rand : N) (chain : chain_run)
    (user_input session_id : string) : Gen unit :=
  try_except
    (yield_each (sse_event "message")
       (stream_response rand chain user_input (Some session_id)))
    (fun e => yield (sse_event "error" ("Error en el stream: " ++ exn_str e))).

(** The response classes of the framework encode the values of the
    headers they are given with latin-1 when they are constructed; of the
    values given here only the session id is not an ASCII constant. *)
Definition init_headers (session_id : string) : outcome unit :=
  match encode_latin1 session_id with
  | Return _ => Return tt
  | Raise e => Raise e
  end.

(** [chat_stream_endpoint]: [self] is [chatbot_service.session_manager];
    [rand] and [rand'] are the random bytes for the two calls of
    [get_or_create_session_id], [headers] the request headers under their
    lower-case names.  The streaming response is constructed around the
    generator before the generator runs; the JSON response is constructed
    inside the [try], after the turn.  The headers of the exception of
    the [except] branch are not represented. *)
Definition chat_stream_endpoint (service_instances : ServiceInstances)
    (rand rand' : N) (chain : chain_run)
    (headers : gmap string string) (message : ChatMessage.t)
    (self : SessionManager) : outcome Response * SessionManager :=
  match chatbot_service service_instances with
  | None => (Raise (HTTPException 503 "Servicio no disponible."), self)
  | Some chatbot_service =>
      let session_id :=
        get_or_create_session_id rand (ChatMessage.session_id message) in
      let accept_header := dict_get headers "accept" "" in
      if str_contains "text/event-stream" accept_header then
        match init_headers session_id with
        | Raise e => (Raise e, self)
        | Return _ =>
            let r := generate_sse_events rand' chain
                       (ChatMessage.user_input message) session_id self in
            (Return (StreamingResponse (yielded r) "text/event-stream"
                       (<["x-session-id" := session_id]>
                        (<["Cache-Control" := "no-cache"]>
                        (<["Connection" := "keep-alive"]> ∅)))),
             self_after r)
        end
      else
        let r := stream_response rand' chain
                   (ChatMessage.user_input message) (Some session_id) self in
        let body :=
          match result r with
          | Return _ =>
              match init_headers session_id with
              | Return _ =>
                  Return (JSONResponse
                            (<["message" := String.concat "" (yielded r)]>
                             (<["session_id" := session_id]> ∅))
                            {[ "x-session-id" := session_id ]})
              | Raise e => Raise e
              end
          | Raise e => Raise e
          end in
        match body with
        | Return response => (Return response, self_after r)
        | Raise e => (Raise (HTTPException 500 (exn_str e)), self_after r)
        end
  end.

End ChatEndpoint.

(* ===================================================================== *)
(** ** Notions used to state the properties *)
(* ===================================================================== *)

Section Statements.
Context {py : PyStr}.

(** What the loop of [detect_name_from_input] computes, read off the
    token list: the first keyword that has a successor decides. *)
Fixpoint name_scan (tokens : list string) : option string :=
  match tokens with
  | [] => None
  | palabra :: rest =>
      match rest with
      | nxt :: _ => if is_keyword palabra then Some (str_capitalize nxt)
                    else name_scan rest
      | [] => None
      end
  end.

(** The greeting of a first turn. *)
Definition greeting_of (user_input : string) : string :=
  match name_scan (str_split user_input) with
  | Some name => "¡Hola " ++ name ++ "! ¿En qué puedo ayudarte hoy?"
  | None => "¡Hola! ¿En qué puedo ayudarte hoy?"
  end.

(** The non-empty ["answer"] entries of the dictionaries of a stream. *)
Definition fragments (items : list chunk) : list string :=
  filter (fun content => str_truthy content = true)
         (map (fun chunk => dict_get chunk "answer" "") items).

(** What the engine is asked to do, one request after the other, from
    the start of the application on. *)
Inductive request : Type :=
| Turn (rand : N) (chain : chain_run) (user_input : string) (session_id : option string)
| Clear (session_id : string).

Definition serve (self : SessionManager) (r : request) : SessionManager :=
  match r with
  | Turn rand chain user_input session_id =>
      self_after (stream_response rand chain user_input session_id self)
  | Clear session_id => snd (clear_session session_id self)
  end.

Definition serve_all (requests : list request) : SessionManager :=
  fold_left serve requests SessionManager_init.

(** What holds of every session the engine stores: its memory has the
    window of four exchanges, it was greeted, and its id is not empty. *)
Definition session_ok (session_id : string) (session : Session.t) : Prop :=
  LangChain.k (Session.memory session) = 4
  /\ Session.greeted session = true
  /\ str_truthy session_id = true.

Definition store_ok (self : SessionManager) : Prop :=
  forall session_id session,
    sessions self !! session_id = Some session -> session_ok session_id session.

(** The two entries that a completed exchange leaves in the history. *)
Definition exchange (question answer : string) : list ChatEntry :=
  [ {| role := "user"; content := question |};
    {| role := "assistant"; content := answer |} ].

(** Turns of one session, each given by its random bytes, its question
    and the run of its chain. *)
Definition turns_of (session_id : string) (turns : list (N * string * chain_run))
  : list request :=
  map (fun t => Turn t.1.1 t.2 t.1.2 (Some session_id)) turns.

End Statements.

(* ===================================================================== *)
(** * Properties *)
(* ===================================================================== *)

Open Scope list_scope.

(** ** The ASCII implementation of the [str] methods *)

Lemma emit_nonempty tok t : In t (AsciiStr.emit tok) -> t <> "".
Proof.
  destruct tok as [|c tok]; simpl; [tauto|].
  intros [<-|[]]; discriminate.
Qed.

Lemma split_from_nonempty s : forall tok t, In t (AsciiStr.split_from tok s) -> t <> "".
Proof.
  induction s as [|c s IH]; intros tok t; simpl.
  - apply emit_nonempty.
  - destruct (AsciiStr.isspace c).
    + rewrite in_app_iff. intros [H|H]; [exact (emit_nonempty _ _ H)|eauto].
    + eauto.
Qed.

Lemma split_nonempty s t : In t (AsciiStr.split s) -> t <> "".
Proof. apply split_from_nonempty. Qed.

Lemma capitalize_nonempty s : s <> "" -> AsciiStr.capitalize s <> "".
Proof. destruct s; [congruence|discriminate]. Qed.

#[export] Instance ascii_str : PyStr := {|
  str_split := AsciiStr.split;
  str_lower := AsciiStr.lower;
  str_capitalize := AsciiStr.capitalize;
  str_strip := AsciiStr.strip;
  str_split_nonempty := split_nonempty;
  str_capitalize_nonempty := capitalize_nonempty
|}.

(** ** Name detection *)

Section PromptsFacts.
Context {py : PyStr}.

Lemma getitem_app_succ {A} (pre : list A) (x y : A) (rest : list A) :
  getitem (pre ++ x :: y :: rest) (length pre + 1) = Return y.
Proof.
  unfold getitem.
  replace (pre ++ x :: y :: rest)%list with ((pre ++ [x]) ++ y :: rest)%list
    by (rewrite <- app_assoc; reflexivity).
  rewrite lookup_app_r; rewrite length_app; simpl; [|lia].
  replace (length pre + 1 - (length pre + 1)) with 0 by lia. reflexivity.
Qed.

Lemma detect_loop_scan rest : forall pre,
  detect_loop (pre ++ rest) (length pre) rest = Return (name_scan rest).
Proof.
  induction rest as [|palabra rest IH]; intros pre; [reflexivity|].
  cbn [detect_loop name_scan].
  destruct rest as [|nxt rest].
  - assert (Hlast : (length pre + 1 <? length (pre ++ [palabra]))%nat = false).
    { apply Nat.ltb_ge. rewrite length_app. simpl. lia. }
    rewrite Hlast, andb_false_r. reflexivity.
  - assert (Hin : (length pre + 1 <? length (pre ++ palabra :: nxt :: rest))%nat = true).
    { apply Nat.ltb_lt. rewrite length_app. simpl. lia. }
    rewrite Hin, andb_true_r.
    destruct (is_keyword palabra).
    + rewrite getitem_app_succ. reflexivity.
    + specialize (IH (pre ++ [palabra])).
      rewrite <- app_assoc, length_app in IH. simpl in IH. exact IH.
Qed.

Lemma detect_name_scan user_input :
  detect_name_from_input user_input = Return (name_scan (str_split user_input)).
Proof. exact (detect_loop_scan (str_split user_input) []). Qed.

Lemma name_scan_no_keyword tokens :
  Forall (fun t => is_keyword t = false) tokens -> name_scan tokens = None.
Proof.
  induction 1 as [|t rest Ht _ IH]; [reflexivity|].
  simpl. rewrite Ht, IH. destruct rest; reflexivity.
Qed.

Lemma name_scan_first_keyword pre : forall kw rest,
  Forall (fun t => is_keyword t = false) pre ->
  is_keyword kw = true ->
  name_scan (pre ++ kw :: rest) = str_capitalize <$> head rest.
Proof.
  induction pre as [|t pre IH]; intros kw rest Hpre Hkw.
  - simpl. rewrite Hkw. destruct rest; reflexivity.
  - inversion Hpre as [|? ? Ht Hpre']; subst.
    change ((t :: pre) ++ kw :: rest)%list with (t :: (pre ++ kw :: rest))%list.
    cbn [name_scan]. rewrite Ht, (IH kw rest Hpre' Hkw).
    destruct (pre ++ kw :: rest)%list eqn:E; [|reflexivity].
    destruct pre; discriminate.
Qed.

Lemma name_scan_nonempty tokens name :
  (forall t, In t tokens -> t <> "") ->
  name_scan tokens = Some name -> name <> "".
Proof.
  induction tokens as [|t rest IH]; intros Hne; [discriminate|].
  simpl. destruct rest as [|nxt rest']; [discriminate|].
  destruct (is_keyword t).
  - intros [= <-]. apply str_capitalize_nonempty, Hne. simpl; auto.
  - apply IH. intros u Hu. apply Hne. right; exact Hu.
Qed.

Lemma detected_name_truthy user_input name :
  detect_name_from_input user_input = Return (Some name) ->
  str_truthy name = true.
Proof.
  rewrite detect_name_scan. intros [= H].
  apply name_scan_nonempty in H; [|apply str_split_nonempty].
  destruct name; [congruence|reflexivity].
Qed.

(** C4. [detect_name_from_input] scans the tokens of [user_input.split()]:
    at the first token whose lower-case form is one of the keywords it
    returns the next token capitalised, and [None] (it does not raise)
    when that keyword is the last token; it returns [None] as well when
    no token is a keyword. *)
Theorem detect_name_scans_tokens (user_input : string) :
  (forall pre kw rest,
      str_split user_input = pre ++ kw :: rest ->
      Forall (fun t => is_keyword t = false) pre ->
      is_keyword kw = true ->
      detect_name_from_input user_input = Return (str_capitalize <$> head rest))
  /\ (Forall (fun t => is_keyword t = false) (str_split user_input) ->
      detect_name_from_input user_input = Return None).
Proof.
  rewrite detect_name_scan. split.
  - intros pre kw rest -> Hpre Hkw.
    f_equal. apply name_scan_first_keyword; assumption.
  - intros Hnone. f_equal. apply name_scan_no_keyword; assumption.
Qed.

End PromptsFacts.

Lemma detect_name_scans_tokens_witness :
  detect_name_from_input "Hola, soy Marta" = Return (Some "Marta")
  /\ detect_name_from_input "Hola, me llamo" = Return None
  /\ detect_name_from_input "buenas tardes" = Return None.
Proof.
  split; [|split].
  - exact (proj1 (detect_name_scans_tokens "Hola, soy Marta")
             ["Hola,"] "soy" ["Marta"] eq_refl
             ltac:(repeat constructor) eq_refl).
  - exact (proj1 (detect_name_scans_tokens "Hola, me llamo")
             ["Hola,"; "me"] "llamo" [] eq_refl
             ltac:(repeat constructor)
             eq_refl).
  - apply (proj2 (detect_name_scans_tokens "buenas tardes")).
    change (Forall (fun t => is_keyword t = false) ["buenas"; "tardes"]).
    repeat constructor.
Defined.

(** ** Session ids *)

Lemma string_length_append (s1 s2 : string) :
  String.length (s1 ++ s2)%string = String.length s1 + String.length s2.
Proof. induction s1 as [|c s1 IH]; simpl; [reflexivity|]. rewrite IH. reflexivity. Qed.

Lemma hex_length count : forall n, String.length (UUID.hex count n) = count.
Proof.
  induction count as [|count IH]; intros n; simpl; [reflexivity|].
  rewrite string_length_append, IH. simpl. lia.
Qed.

Lemma uuid_str_length int : String.length (UUID.str int) = 36.
Proof.
  unfold UUID.str.
  rewrite !string_length_append, !hex_length. reflexivity.
Qed.

Lemma uuid_str_truthy int : str_truthy (UUID.str int) = true.
Proof.
  pose proof (uuid_str_length int) as H.
  destruct (UUID.str int); [discriminate H|reflexivity].
Qed.

(** The session id a turn works on is never the empty string. *)
Lemma resolved_id_truthy rand session_id :
  str_truthy (get_or_create_session_id rand session_id) = true.
Proof.
  unfold get_or_create_session_id.
  destruct session_id as [s|]; [|apply uuid_str_truthy].
  destruct (str_truthy s) eqn:E; [exact E|apply uuid_str_truthy].
Qed.

(** C8, at the empty string: the id handed in is not returned; a new
    UUID is. *)
Lemma empty_session_id_is_replaced :
  get_or_create_session_id 0 (Some "") = "00000000-0000-4000-8000-000000000000"
  /\ get_or_create_session_id 0 (Some "") <> "".
Proof. split; [reflexivity|discriminate]. Qed.

Lemma string_app_inj (a a' b b' : string) :
  String.length a = String.length a' ->
  (a ++ b)%string = (a' ++ b')%string -> a = a' /\ b = b'.
Proof.
  revert a'. induction a as [|c a IH]; intros [|c' a'] Hlen H; try discriminate Hlen.
  - split; [reflexivity|exact H].
  - simpl in H. injection H as -> H. injection Hlen as Hlen.
    destruct (IH a' Hlen H) as [-> ->]. split; reflexivity.
Qed.

Lemma hex_digit_inj (d d' : N) :
  (d < 16)%N -> (d' < 16)%N -> UUID.hex_digit d = UUID.hex_digit d' -> d = d'.
Proof.
  intros Hd Hd' H. apply (f_equal N_of_ascii) in H. unfold UUID.hex_digit in H.
  destruct (N.ltb_spec d 10), (N.ltb_spec d' 10);
    rewrite !N_ascii_embedding in H by lia; lia.
Qed.

Lemma hex_inj count : forall n m,
  UUID.hex count n = UUID.hex count m ->
  (n mod 16 ^ N.of_nat count = m mod 16 ^ N.of_nat count)%N.
Proof.
  induction count as [|count IH]; intros n m H.
  - simpl. rewrite !N.mod_1_r. reflexivity.
  - cbn [UUID.hex] in H.
    apply string_app_inj in H; [|rewrite !hex_length; reflexivity].
    destruct H as [Hhi Hlo]. injection Hlo as Hlo.
    change 15%N with (N.ones 4) in Hlo. rewrite !N.land_ones in Hlo.
    apply hex_digit_inj in Hlo; [|apply N.mod_lt; discriminate..].
    apply IH in Hhi. rewrite !N.shiftr_div_pow2 in Hhi.
    change (2 ^ 4)%N with 16%N in *.
    rewrite Nat2N.inj_succ, N.pow_succ_r'.
    rewrite !N.Div0.mod_mul_r. rewrite Hhi, Hlo. reflexivity.
Qed.

Lemma mod_glue (a b u v : N) :
  (u mod a = v mod a)%N -> ((u / a) mod b = (v / a) mod b)%N ->
  (u mod (a * b) = v mod (a * b))%N.
Proof. intros H1 H2. rewrite !N.Div0.mod_mul_r, H1, H2. reflexivity. Qed.

Lemma dash_inj (x y : string) : ("-" ++ x)%string = ("-" ++ y)%string -> x = y.
Proof.
  intros H. change (String "-" x = String "-" y) in H. injection H as H. exact H.
Qed.

Lemma dashed_parts_inj (a b c d e a' b' c' d' e' : string) :
  String.length a = String.length a' -> String.length b = String.length b' ->
  String.length c = String.length c' -> String.length d = String.length d' ->
  (a ++ "-" ++ b ++ "-" ++ c ++ "-" ++ d ++ "-" ++ e)%string
  = (a' ++ "-" ++ b' ++ "-" ++ c' ++ "-" ++ d' ++ "-" ++ e')%string ->
  a = a' /\ b = b' /\ c = c' /\ d = d' /\ e = e'.
Proof.
  intros La Lb Lc Ld H.
  apply string_app_inj in H; [|exact La]. destruct H as [-> H]. apply dash_inj in H.
  apply string_app_inj in H; [|exact Lb]. destruct H as [-> H]. apply dash_inj in H.
  apply string_app_inj in H; [|exact Lc]. destruct H as [-> H]. apply dash_inj in H.
  apply string_app_inj in H; [|exact Ld]. destruct H as [-> H]. apply dash_inj in H. subst e.
  repeat split.
Qed.

Lemma uuid_str_inj_mod (u v : N) :
  UUID.str u = UUID.str v -> (u mod 2 ^ 128 = v mod 2 ^ 128)%N.
Proof.
  unfold UUID.str. intros H.
  apply dashed_parts_inj in H; [|rewrite !hex_length; reflexivity..].
  destruct H as (H1 & H2 & H3 & H4 & H5).
  apply hex_inj in H1, H2, H3, H4, H5.
  rewrite !N.shiftr_div_pow2 in *.
  change (16 ^ N.of_nat 8)%N with (2 ^ 32)%N in H1.
  change (16 ^ N.of_nat 4)%N with (2 ^ 16)%N in H2, H3, H4.
  change (16 ^ N.of_nat 12)%N with (2 ^ 48)%N in H5.
  assert (E80 : forall w : N, (w / 2 ^ 80 / 2 ^ 16 = w / 2 ^ 96)%N)
    by (intros w; rewrite N.Div0.div_div; reflexivity).
  assert (E64 : forall w : N, (w / 2 ^ 64 / 2 ^ 16 = w / 2 ^ 80)%N)
    by (intros w; rewrite N.Div0.div_div; reflexivity).
  assert (E48 : forall w : N, (w / 2 ^ 48 / 2 ^ 16 = w / 2 ^ 64)%N)
    by (intros w; rewrite N.Div0.div_div; reflexivity).
  assert (G2 : ((u / 2 ^ 80) mod (2 ^ 16 * 2 ^ 32) = (v / 2 ^ 80) mod (2 ^ 16 * 2 ^ 32))%N)
    by (apply mod_glue; [exact H2|rewrite !E80; exact H1]).
  assert (G3 : ((u / 2 ^ 64) mod (2 ^ 16 * (2 ^ 16 * 2 ^ 32))
                = (v / 2 ^ 64) mod (2 ^ 16 * (2 ^ 16 * 2 ^ 32)))%N)
    by (apply mod_glue; [exact H3|rewrite !E64; exact G2]).
  assert (G4 : ((u / 2 ^ 48) mod (2 ^ 16 * (2 ^ 16 * (2 ^ 16 * 2 ^ 32)))
                = (v / 2 ^ 48) mod (2 ^ 16 * (2 ^ 16 * (2 ^ 16 * 2 ^ 32))))%N)
    by (apply mod_glue; [exact H4|rewrite !E48; exact G3]).
  change (2 ^ 128)%N with (2 ^ 48 * (2 ^ 16 * (2 ^ 16 * (2 ^ 16 * 2 ^ 32))))%N.
  apply mod_glue; assumption.
Qed.

Lemma uuid4_split (rand : N) :
  UUID.uuid4 rand = N.lor (N.land rand UUID.random_bits) UUID.fixed_bits.
Proof.
  unfold UUID.uuid4, UUID.random_bits, UUID.fixed_bits. cbv zeta.
  apply N.bits_inj. intros i.
  repeat first [rewrite N.lor_spec | rewrite N.ldiff_spec | rewrite N.land_spec].
  assert (Hdisj : N.testbit (N.shiftl 32768 48) i && N.testbit (N.shiftl 61440 64) i
                  = false).
  { rewrite <- N.land_spec. change (N.land (N.shiftl 32768 48) (N.shiftl 61440 64)) with 0%N.
    apply N.bits_0. }
  destruct (N.testbit rand i), (N.testbit (N.ones 128) i),
    (N.testbit (N.shiftl 49152 48) i), (N.testbit (N.shiftl 32768 48) i),
    (N.testbit (N.shiftl 61440 64) i), (N.testbit (N.shiftl 4 76) i);
    try reflexivity; discriminate Hdisj.
Qed.

Lemma uuid4_below (rand : N) : (UUID.uuid4 rand mod 2 ^ 128 = UUID.uuid4 rand)%N.
Proof.
  rewrite <- N.land_ones, uuid4_split, N.land_lor_distr_l, <- N.land_assoc.
  reflexivity.
Qed.

Lemma uuid4_inj (r1 r2 : N) :
  UUID.uuid4 r1 = UUID.uuid4 r2
  <-> N.land r1 UUID.random_bits = N.land r2 UUID.random_bits.
Proof.
  rewrite !uuid4_split. split; [|intros ->; reflexivity].
  intros H. apply N.bits_inj. intros i.
  apply (f_equal (fun n => N.testbit n i)) in H.
  rewrite !N.lor_spec, !N.land_spec in H. rewrite !N.land_spec.
  assert (Hdisj : N.testbit UUID.random_bits i && N.testbit UUID.fixed_bits i = false).
  { rewrite <- N.land_spec. change (N.land UUID.random_bits UUID.fixed_bits) with 0%N.
    apply N.bits_0. }
  destruct (N.testbit r1 i), (N.testbit r2 i), (N.testbit UUID.random_bits i),
    (N.testbit UUID.fixed_bits i); try reflexivity; try discriminate H;
    discriminate Hdisj.
Qed.

Lemma uuid_str_inj (r1 r2 : N) :
  UUID.str (UUID.uuid4 r1) = UUID.str (UUID.uuid4 r2)
  <-> N.land r1 UUID.random_bits = N.land r2 UUID.random_bits.
Proof.
  rewrite <- uuid4_inj. split; [|intros ->; reflexivity].
  intros H. apply uuid_str_inj_mod in H. rewrite !uuid4_below in H. exact H.
Qed.

(** C8, as the code has it.  A session id that is given and not empty is
    returned unchanged; only when none is given, or the empty string is,
    a new id is allocated: the text of a version-4 UUID, 36 characters
    long (so never the empty string that was handed in), which carries
    all 122 random bits of the draw, so that two allocations give the
    same id only if their random bytes agree on every one of these bits. *)
Theorem get_or_create_session_id_spec (rand : N) (session_id : option string) :
  get_or_create_session_id rand session_id =
    match session_id with
    | Some (String c s) => String c s
    | Some EmptyString | None => UUID.str (UUID.uuid4 rand)
    end
  /\ String.length (UUID.str (UUID.uuid4 rand)) = 36
  /\ (forall rand' : N,
        get_or_create_session_id rand None = get_or_create_session_id rand' None
        <-> N.land rand UUID.random_bits = N.land rand' UUID.random_bits)
  /\ UUID.random_bits = (2 ^ 128 - 1 - 15 * 2 ^ 76 - 3 * 2 ^ 62)%N.
Proof.
  split; [destruct session_id as [[|c s]|]; reflexivity|].
  split; [apply uuid_str_length|].
  split; [intros rand'; apply uuid_str_inj|reflexivity].
Qed.

(** ** The session store *)

Lemma mark_as_greeted_sessions session_id self :
  snd (mark_as_greeted session_id self) =
  {| sessions :=
       <[session_id :=
           Session.set_greeted true
             (default new_session (sessions self !! session_id))]> (sessions self) |}.
Proof.
  unfold mark_as_greeted, st_bind, _get_or_create_session, session_setitem.
  destruct (sessions self !! session_id) as [session|] eqn:E; simpl.
  - f_equal. apply alter_alt_Some. exact E.
  - f_equal. apply alter_insert_eq.
Qed.

Lemma save_name_sessions session_id name self :
  snd (save_name session_id name self) =
  {| sessions :=
       <[session_id :=
           Session.set_name (Some name)
             (default new_session (sessions self !! session_id))]> (sessions self) |}.
Proof.
  unfold save_name, st_bind, _get_or_create_session, session_setitem.
  destruct (sessions self !! session_id) as [session|] eqn:E; simpl.
  - f_equal. apply alter_alt_Some. exact E.
  - f_equal. apply alter_insert_eq.
Qed.

(** C9. [get_name], [has_name], [has_greeted] and [get_history] leave the
    session manager exactly as it was, for known and unknown ids alike;
    [mark_as_greeted] and [save_name] on an unknown id store a new, empty
    session under that id and set the flag, respectively the name, in it. *)
Theorem accessors_read_only_mutators_create
    (self : SessionManager) (session_id name : string) :
  snd (get_name session_id self) = self
  /\ snd (has_name session_id self) = self
  /\ snd (has_greeted session_id self) = self
  /\ snd (get_history session_id self) = self
  /\ (sessions self !! session_id = None ->
      snd (mark_as_greeted session_id self) =
        {| sessions := <[session_id := Session.set_greeted true new_session]>
                         (sessions self) |}
      /\ snd (save_name session_id name self) =
        {| sessions := <[session_id := Session.set_name (Some name) new_session]>
                         (sessions self) |}).
Proof.
  repeat split; try reflexivity.
  - rewrite mark_as_greeted_sessions, H. reflexivity.
  - rewrite save_name_sessions, H. reflexivity.
Qed.

Lemma accessors_read_only_mutators_create_witness :
  snd (get_history "nadie" SessionManager_init) = SessionManager_init
  /\ fst (has_greeted "nadie" (snd (mark_as_greeted "nadie" SessionManager_init))) = true
  /\ fst (get_name "nadie" (snd (save_name "nadie" "Marta" SessionManager_init)))
     = Some "Marta".
Proof.
  destruct (accessors_read_only_mutators_create SessionManager_init "nadie" "Marta")
    as (_ & _ & _ & Hhist & Hcreate).
  destruct (Hcreate eq_refl) as [Hmark Hsave].
  split; [exact Hhist|]. split.
  - rewrite Hmark. reflexivity.
  - rewrite Hsave. reflexivity.
Defined.

(** C7. After [clear_session] on an id, [_get_or_create_session] on the
    same id gives the session that a never-seen id gets: the new session,
    with no message, not greeted, without name; the accessors of the
    store say the same. *)
Theorem clear_then_get_or_create_is_new
    (self : SessionManager) (session_id other : string) :
  sessions self !! other = None ->
  let cleared := snd (clear_session session_id self) in
  let session := fst (_get_or_create_session session_id cleared) in
  let self' := snd (_get_or_create_session session_id cleared) in
  session = fst (_get_or_create_session other self)
  /\ session = new_session
  /\ LangChain.chat_memory (Session.memory session) = []
  /\ Session.greeted session = false
  /\ Session.name session = None
  /\ fst (get_history session_id self') = Some []
  /\ fst (has_greeted session_id self') = false
  /\ fst (get_name session_id self') = None.
Proof.
  intros Hother. cbv zeta.
  unfold clear_session, _get_or_create_session, get_history, has_greeted,
    get_name, st_read. simpl.
  rewrite Hother, lookup_delete_eq. simpl.
  rewrite lookup_insert_eq. repeat split; reflexivity.
Qed.

Lemma clear_then_get_or_create_is_new_witness :
  let self := snd (mark_as_greeted "a" SessionManager_init) in
  fst (has_greeted "a" self) = true
  /\ fst (_get_or_create_session "a" (snd (clear_session "a" self))) = new_session.
Proof.
  split; [reflexivity|].
  exact (proj1 (proj2 (clear_then_get_or_create_is_new
                         (snd (mark_as_greeted "a" SessionManager_init))
                         "a" "b" eq_refl))).
Defined.

(** ** Turns *)

Section ChatbotFacts.
Context {py : PyStr}.

Lemma fragments_cons chunk items :
  fragments (chunk :: items) =
  if str_truthy (dict_get chunk "answer" "")
  then dict_get chunk "answer" "" :: fragments items
  else fragments items.
Proof.
  unfold fragments. cbn [map].
  destruct (str_truthy (dict_get chunk "answer" "")) eqn:E.
  - rewrite filter_cons_True by exact E. reflexivity.
  - rewrite filter_cons_False by (rewrite E; discriminate). reflexivity.
Qed.

Lemma fragments_truthy items :
  Forall (fun fragment => fragment <> "") (fragments items).
Proof.
  induction items as [|chunk items IH]; [constructor|].
  rewrite fragments_cons.
  destruct (dict_get chunk "answer" "") eqn:E; simpl; [exact IH|].
  constructor; [discriminate|exact IH].
Qed.

(** The loop of [stream_response] over the dictionaries of the stream. *)
Lemma async_for_yields items self :
  async_for items
    (fun chunk =>
       let content := dict_get chunk "answer" "" in
       if str_truthy content then yield content else gen_ret tt) self
  = {| yielded := fragments items; self_after := self; result := Return tt |}.
Proof.
  induction items as [|chunk items IH]; [reflexivity|].
  cbn [async_for]. unfold gen_bind. rewrite fragments_cons.
  cbv zeta in IH |- *.
  destruct (str_truthy (dict_get chunk "answer" "")); cbn [yield gen_ret result self_after yielded];
    rewrite IH; reflexivity.
Qed.

Lemma answer_text_returned answer :
  answer_text (produced (ChainReturns answer)) = answer.
Proof.
  unfold answer_text, produced, dict_get. cbn [map].
  rewrite lookup_singleton_eq. reflexivity.
Qed.

Lemma welcome_generic :
  dict_get GREETING_MESSAGES "welcome_generic" "¡Hola! ¿En qué puedo ayudarte hoy?"
  = "¡Hola! ¿En qué puedo ayudarte hoy?".
Proof. reflexivity. Qed.

(** The first branch of [stream_response]. *)
Lemma stream_response_greeting rand chain user_input session_id self :
  let sid := get_or_create_session_id rand session_id in
  fst (has_greeted sid self) = false ->
  stream_response rand chain user_input session_id self =
  {| yielded := [greeting_of user_input];
     self_after := snd (mark_as_greeted sid self);
     result := Return tt |}.
Proof.
  intros sid Hnot.
  unfold stream_response, try_except, gen_bind, call, eval.
  fold sid. destruct (has_greeted sid self) as [was_greeted self0] eqn:Hg.
  assert (self0 = self) as -> by (unfold has_greeted, st_read in Hg; congruence).
  simpl in Hnot. subst was_greeted. simpl.
  rewrite detect_name_scan. simpl.
  destruct (mark_as_greeted sid self) as [[] self1] eqn:Hm. simpl.
  f_equal. f_equal. unfold greeting_of.
  destruct (name_scan (str_split user_input)) as [name|] eqn:Hscan; simpl.
  - apply name_scan_nonempty in Hscan; [|apply str_split_nonempty].
    destruct name; [congruence|reflexivity].
  - apply welcome_generic.
Qed.

(** The second branch of [stream_response]. *)
Lemma stream_response_active rand chain user_input session_id self :
  let sid := get_or_create_session_id rand session_id in
  fst (has_greeted sid self) = true ->
  stream_response rand chain user_input session_id self =
  {| yielded :=
       fragments (produced chain) ++
       match failure chain with Some _ => [error_msg] | None => [] end;
     self_after :=
       match failure chain with
       | Some _ => self
       | None =>
           snd (session_setitem sid
                  (Session.set_memory
                     (LangChain.save_context user_input
                        (answer_text (produced chain)))) self)
       end;
     result := Return tt |}.
Proof.
  intros sid Hyes.
  unfold stream_response, try_except, gen_bind, call.
  fold sid. destruct (has_greeted sid self) as [was_greeted self0] eqn:Hg.
  assert (self0 = self) as -> by (unfold has_greeted, st_read in Hg; congruence).
  simpl in Hyes. subst was_greeted. simpl.
  assert (Hmem : snd (get_or_create_memory sid self) = self).
  { unfold has_greeted, st_read in Hg.
    unfold get_or_create_memory, st_bind, _get_or_create_session, st_ret.
    destruct (sessions self !! sid); [reflexivity|discriminate]. }
  destruct (get_or_create_memory sid self) as [memory self1]. simpl in Hmem. subst self1.
  unfold qa_chain_astream. destruct chain as [e|answer].
  - reflexivity.
  - unfold gen_bind, call, session_setitem.
    cbn [result self_after yielded failure]. rewrite async_for_yields.
    cbn [result self_after yielded snd]. rewrite answer_text_returned, !app_nil_r.
    reflexivity.
Qed.

Lemma greeting_of_detected user_input :
  greeting_of user_input =
  match detect_name_from_input user_input with
  | Return (Some name) => ("¡Hola " ++ name ++ "! ¿En qué puedo ayudarte hoy?")%string
  | _ => "¡Hola! ¿En qué puedo ayudarte hoy?"
  end.
Proof. rewrite detect_name_scan. reflexivity. Qed.

Lemma greeting_of_truthy user_input : greeting_of user_input <> "".
Proof.
  unfold greeting_of.
  destruct (name_scan (str_split user_input)); discriminate.
Qed.

(** C3. The first turn of a session that was not greeted and has no
    message: one fragment is yielded, the greeting, which carries the
    name detected in the input when there is one and is the generic
    greeting otherwise; it is the same whatever the chain would have done;
    afterwards the session is marked as greeted and its history is the
    empty list. *)
Theorem first_turn_is_one_greeting
    (rand : N) (chain : chain_run) (user_input : string)
    (session_id : option string) (self : SessionManager) :
  let sid := get_or_create_session_id rand session_id in
  let turn := stream_response rand chain user_input session_id self in
  fst (has_greeted sid self) = false ->
  history_truthy (fst (get_history sid self)) = false ->
  yielded turn = [greeting_of user_input]
  /\ greeting_of user_input =
       match detect_name_from_input user_input with
       | Return (Some name) => ("¡Hola " ++ name ++ "! ¿En qué puedo ayudarte hoy?")%string
       | _ => "¡Hola! ¿En qué puedo ayudarte hoy?"
       end
  /\ (forall chain', stream_response rand chain' user_input session_id self = turn)
  /\ result turn = Return tt
  /\ fst (has_greeted sid (self_after turn)) = true
  /\ fst (get_history sid (self_after turn)) = Some [].
Proof.
  intros sid turn Hnot Hempty. subst turn.
  rewrite (stream_response_greeting rand chain user_input session_id self Hnot).
  cbn [yielded result self_after]. fold sid.
  split; [reflexivity|]. split; [apply greeting_of_detected|].
  split; [intros chain'; apply stream_response_greeting; exact Hnot|].
  split; [reflexivity|].
  rewrite mark_as_greeted_sessions.
  unfold has_greeted, get_history, st_read in *. cbn [fst sessions] in *.
  rewrite lookup_insert_eq. split; [reflexivity|].
  destruct (sessions self !! sid) as [session|]; [|reflexivity].
  simpl in *.
  destruct (LangChain.chat_memory (Session.memory session)); [reflexivity|discriminate].
Qed.

(** C10. No fragment yielded by [stream_response] is the empty string;
    in a turn of a greeted session the fragments are the ["answer"]
    entries of the stream's dictionaries, in order, without those that
    are empty or missing, followed by the apology if the stream raised. *)
Theorem yielded_fragments_are_not_empty
    (rand : N) (chain : chain_run) (user_input : string)
    (session_id : option string) (self : SessionManager) :
  let sid := get_or_create_session_id rand session_id in
  let turn := stream_response rand chain user_input session_id self in
  Forall (fun fragment => fragment <> "") (yielded turn)
  /\ (fst (has_greeted sid self) = true ->
      yielded turn =
      filter (fun content => str_truthy content = true)
             (map (fun chunk => dict_get chunk "answer" "") (produced chain))
      ++ match failure chain with Some _ => [error_msg] | None => [] end).
Proof.
  intros sid turn. subst turn.
  destruct (fst (has_greeted sid self)) eqn:Hg.
  - rewrite (stream_response_active rand chain user_input session_id self Hg).
    cbn [yielded]. split; [|reflexivity].
    apply Forall_app. split; [apply fragments_truthy|].
    destruct (failure chain); repeat constructor. discriminate.
  - rewrite (stream_response_greeting rand chain user_input session_id self Hg).
    cbn [yielded]. split; [|discriminate].
    repeat constructor. apply greeting_of_truthy.
Qed.

(** C2. When retrieval or generation fails in a turn of a greeted
    session, that is, when the run of the chain raises, the turn yields
    one fragment, the fixed apology, and nothing else; the generator
    itself ends normally and the session manager, hence the history of
    the session, is what it was before the turn: no pair is appended. *)
Theorem failed_turn_ends_with_the_apology
    (rand : N) (chain : chain_run) (user_input : string)
    (session_id : option string) (self : SessionManager) (e : exn) :
  let sid := get_or_create_session_id rand session_id in
  let turn := stream_response rand chain user_input session_id self in
  fst (has_greeted sid self) = true ->
  failure chain = Some e ->
  yielded turn = [error_msg]
  /\ result turn = Return tt
  /\ self_after turn = self
  /\ fst (get_history sid (self_after turn)) = fst (get_history sid self).
Proof.
  intros sid turn Hg Hfail. subst turn.
  rewrite (stream_response_active rand chain user_input session_id self Hg), Hfail.
  cbn [yielded result self_after].
  destruct chain as [e'|answer]; [|discriminate Hfail].
  repeat split.
Qed.

End ChatbotFacts.

(** The second turn of a session is answered, in the third the chain
    raises: the apology alone, and the history keeps the one exchange. *)
Lemma failed_turn_ends_with_the_apology_witness :
  let self := serve_all [ Turn 0 (ChainReturns "") "Hola, soy Marta" (Some "s");
                          Turn 0 (ChainReturns "Respira") "me siento triste hoy"
                               (Some "s") ] in
  let turn := stream_response 0 (ChainRaises (Exception "timeout"))
                "no puedo dormir" (Some "s") self in
  yielded turn = [error_msg]
  /\ fst (get_history "s" (self_after turn))
     = Some (exchange "me siento triste hoy" "Respira").
Proof.
  intros self turn.
  assert (Hg : fst (has_greeted (get_or_create_session_id 0 (Some "s")) self) = true)
    by (vm_compute; reflexivity).
  destruct (failed_turn_ends_with_the_apology 0 (ChainRaises (Exception "timeout"))
              "no puedo dormir" (Some "s") self (Exception "timeout") Hg eq_refl)
    as (Hy & _ & _ & Hh).
  split; [exact Hy|].
  change (get_or_create_session_id 0 (Some "s")) with "s" in Hh.
  subst turn. rewrite Hh. vm_compute. reflexivity.
Defined.

Lemma first_turn_is_one_greeting_witness :
  let turn := stream_response 0 (ChainReturns "")
                "Hola, soy Marta" (Some "s") SessionManager_init in
  yielded turn = ["¡Hola Marta! ¿En qué puedo ayudarte hoy?"]
  /\ fst (has_greeted "s" (self_after turn)) = true
  /\ fst (get_history "s" (self_after turn)) = Some [].
Proof.
  intros turn.
  destruct (first_turn_is_one_greeting 0 (ChainReturns "")
              "Hola, soy Marta" (Some "s") SessionManager_init eq_refl eq_refl)
    as (Hy & _ & _ & _ & Hg & Hh).
  split; [exact Hy|]. split; [exact Hg|exact Hh].
Defined.

(** ** The message log and the window *)

Section HistoryFacts.
Context {py : PyStr}.

Lemma serve_store_ok self r : store_ok self -> store_ok (serve self r).
Proof.
  intros Hok. destruct r as [rand chain user_input session_id|session_id]; simpl.
  - set (sid := get_or_create_session_id rand session_id).
    destruct (fst (has_greeted sid self)) eqn:Hg.
    + rewrite (stream_response_active rand chain user_input session_id self Hg).
      cbn [self_after]. fold sid.
      destruct (failure chain); [exact Hok|].
      unfold session_setitem. cbn [snd].
      intros other session. cbn [sessions]. rewrite alter_alt.
      destruct (sessions self !! sid) as [old|] eqn:Hold; [|apply Hok].
      destruct (decide (sid = other)) as [<-|Hne].
      * rewrite lookup_insert_eq. intros [= <-].
        destruct (Hok sid old Hold) as (Hk & Hgr & Hid).
        repeat split; assumption.
      * rewrite lookup_insert_ne by exact Hne. apply Hok.
    + rewrite (stream_response_greeting rand chain user_input session_id self Hg).
      cbn [self_after]. fold sid. rewrite mark_as_greeted_sessions.
      intros other session. cbn [sessions].
      destruct (decide (sid = other)) as [<-|Hne].
      * rewrite lookup_insert_eq. intros [= <-].
        split; [|split; [reflexivity|apply resolved_id_truthy]].
        destruct (sessions self !! sid) as [old|] eqn:Hold; [|reflexivity].
        exact (proj1 (Hok sid old Hold)).
      * rewrite lookup_insert_ne by exact Hne. apply Hok.
  - intros other session. unfold clear_session. cbn [snd sessions].
    intros H. apply lookup_delete_Some in H. apply Hok, H.
Qed.

Lemma fold_serve_store_ok requests : forall self,
  store_ok self -> store_ok (fold_left serve requests self).
Proof.
  induction requests as [|r requests IH]; intros self Hok; [exact Hok|].
  simpl. apply IH, serve_store_ok, Hok.
Qed.

Lemma serve_all_store_ok requests : store_ok (serve_all requests).
Proof.
  apply fold_serve_store_ok. intros session_id session.
  unfold SessionManager_init. cbn [sessions]. rewrite lookup_empty. discriminate.
Qed.

(** Among the sessions the engine stores none is left ungreeted: a
    session that was not greeted is one that is not stored. *)
Lemma served_ungreeted_iff_unknown requests session_id :
  fst (has_greeted session_id (serve_all requests)) = false
  <-> sessions (serve_all requests) !! session_id = None.
Proof.
  unfold has_greeted, st_read. cbn [fst].
  destruct (sessions (serve_all requests) !! session_id) as [session|] eqn:Hs.
  - destruct (serve_all_store_ok requests session_id session Hs) as (_ & Hgr & _).
    rewrite Hgr. split; discriminate.
  - split; reflexivity.
Qed.

(** A turn of a greeted session whose chain run ends without exception
    puts the question and the answer at the end of the session's log. *)
Lemma completed_turn_appends_pair rand chain user_input session_id self session :
  let sid := get_or_create_session_id rand session_id in
  sessions self !! sid = Some session ->
  Session.greeted session = true ->
  failure chain = None ->
  fst (get_history sid
         (self_after (stream_response rand chain user_input session_id self)))
  = Some (map format_message (LangChain.chat_memory (Session.memory session))
          ++ [ {| role := "user"; content := user_input |};
               {| role := "assistant"; content := answer_text (produced chain) |} ]).
Proof.
  intros sid Hs Hgr Hdone.
  assert (Hg : fst (has_greeted sid self) = true).
  { unfold has_greeted, st_read. cbn [fst]. rewrite Hs. exact Hgr. }
  rewrite (stream_response_active rand chain user_input session_id self Hg), Hdone.
  cbn [self_after]. fold sid.
  unfold session_setitem, get_history, st_read. cbn [fst snd sessions].
  rewrite (alter_alt_Some _ _ _ _ Hs), lookup_insert_eq.
  cbn [Session.set_memory Session.memory LangChain.save_context LangChain.chat_memory].
  rewrite map_app. reflexivity.
Qed.

(** C1, as the code has it.  Whatever requests were served, for every
    stored session: the window that the memory hands to the prompt has at
    most 8 messages and is the end of the log, the most recent messages in
    the order in which they were added; [get_history] returns the whole
    log, in that order; and a further turn of the session that is
    completed puts its two messages at the end of what [get_history]
    returns, nothing being removed. *)
Theorem window_bounds_prompt_not_history
    (requests : list request) (session_id : string) (session : Session.t) :
  sessions (serve_all requests) !! session_id = Some session ->
  let memory := Session.memory session in
  let messages := LangChain.chat_memory memory in
  length (LangChain.buffer memory) <= 2 * 4
  /\ LangChain.buffer memory = drop (length messages - 2 * 4) messages
  /\ fst (get_history session_id (serve_all requests))
     = Some (map format_message messages)
  /\ (forall rand chain user_input,
        failure chain = None ->
        fst (get_history session_id
               (serve (serve_all requests)
                      (Turn rand chain user_input (Some session_id))))
        = Some (map format_message messages
                ++ [ {| role := "user"; content := user_input |};
                     {| role := "assistant";
                        content := answer_text (produced chain) |} ])).
Proof.
  intros Hs memory messages. subst memory messages.
  destruct (serve_all_store_ok requests session_id session Hs) as (Hk & Hgr & Hid).
  set (memory := Session.memory session).
  set (messages := LangChain.chat_memory memory).
  assert (Hbuf : LangChain.buffer memory = drop (length messages - 2 * 4) messages).
  { unfold LangChain.buffer. subst messages memory. rewrite Hk. reflexivity. }
  split; [|split; [exact Hbuf|split]].
  - rewrite Hbuf, length_drop. lia.
  - unfold get_history, st_read. cbn [fst]. rewrite Hs. reflexivity.
  - intros rand chain user_input Hdone. cbn [serve].
    assert (Hsid : get_or_create_session_id rand (Some session_id) = session_id).
    { unfold get_or_create_session_id. rewrite Hid. reflexivity. }
    pose proof (completed_turn_appends_pair rand chain user_input (Some session_id)
                  (serve_all requests) session) as H.
    cbv zeta in H. rewrite Hsid in H. exact (H Hs Hgr Hdone).
Qed.

End HistoryFacts.

(** Five completed turns after the greeting: ten messages are recorded,
    the window has the last eight of them. *)
Lemma window_bounds_prompt_not_history_witness :
  let answered a := ChainReturns a in
  let requests :=
    [ Turn 0 (answered "") "Hola, soy Marta" (Some "s");
      Turn 0 (answered "a1") "uno" (Some "s");
      Turn 0 (answered "a2") "dos" (Some "s");
      Turn 0 (answered "a3") "tres" (Some "s");
      Turn 0 (answered "a4") "cuatro" (Some "s");
      Turn 0 (answered "a5") "cinco" (Some "s") ] in
  let session := default new_session (sessions (serve_all requests) !! "s") in
  length (LangChain.chat_memory (Session.memory session)) = 10
  /\ length (LangChain.buffer (Session.memory session)) <= 2 * 4
  /\ fst (get_history "s" (serve_all requests))
     = Some (map format_message (LangChain.chat_memory (Session.memory session))).
Proof.
  intros answered requests session.
  assert (Hs : sessions (serve_all requests) !! "s" = Some session)
    by (vm_compute; reflexivity).
  destruct (window_bounds_prompt_not_history requests "s" session Hs)
    as (Hlen & _ & Hhist & _).
  split; [vm_compute; reflexivity|]. split; [exact Hlen|exact Hhist].
Defined.

(** C1, after the greeting and five completed turns: [get_history]
    returns ten messages, the first exchange still among them. *)
Lemma history_exceeds_window :
  let answered a := ChainReturns a in
  let requests :=
    [ Turn 0 (answered "") "Hola, soy Marta" (Some "s");
      Turn 0 (answered "a1") "uno" (Some "s");
      Turn 0 (answered "a2") "dos" (Some "s");
      Turn 0 (answered "a3") "tres" (Some "s");
      Turn 0 (answered "a4") "cuatro" (Some "s");
      Turn 0 (answered "a5") "cinco" (Some "s") ] in
  let history :=
    [ {| role := "user"; content := "uno" |};
      {| role := "assistant"; content := "a1" |};
      {| role := "user"; content := "dos" |};
      {| role := "assistant"; content := "a2" |};
      {| role := "user"; content := "tres" |};
      {| role := "assistant"; content := "a3" |};
      {| role := "user"; content := "cuatro" |};
      {| role := "assistant"; content := "a4" |};
      {| role := "user"; content := "cinco" |};
      {| role := "assistant"; content := "a5" |} ] in
  fst (get_history "s" (serve_all requests)) = Some history
  /\ length history = 10
  /\ ~ length history <= 2 * 4.
Proof.
  intros answered requests history.
  split; [vm_compute; reflexivity|]. split; [reflexivity|]. simpl. lia.
Qed.

(** ** Summaries *)

Section SummaryFacts.
Context {py : PyStr}.

(** C6. [generate_summary] always returns a string: the fixed fallback
    message when the call of the model backend raises, and the text of
    the backend with [strip] applied when it returns. *)
Theorem generate_summary_falls_back
    (llm : string -> outcome string) (chat_history : list ChatEntry) :
  let formatted_history :=
    String.concat newline
      (map (fun msg => (str_capitalize (role msg) ++ ": " ++ content msg)%string)
           chat_history) in
  (forall e, llm (summary_prompt formatted_history) = Raise e ->
             generate_summary llm chat_history = summary_fallback)
  /\ (forall summary, llm (summary_prompt formatted_history) = Return summary ->
                      generate_summary llm chat_history = str_strip summary).
Proof.
  intros formatted_history. unfold generate_summary. fold formatted_history.
  split; intros x Hllm; rewrite Hllm; reflexivity.
Qed.

(** C5. While the application runs, the summary endpoint raises the 404
    error exactly when [get_history] gives [None] (no session under the
    id) or the empty list.  Otherwise it produces the summary from the
    retained history: the messages kept for the session, one line per
    message with its capitalised role, are put into the summary prompt,
    the model backend is called with that prompt, and its text with
    [strip] applied (the fallback message if it raises) is what is
    mailed; the answer is the success message or the mail error. *)
Theorem summary_not_found_iff_no_history
    (service : ChatbotService) (manager : SessionManager)
    (smtp : string -> string -> outcome unit) (request : SummaryRequest) :
  let history := fst (get_history (session_id request) manager) in
  let response := create_summary (lifespan_started service manager) smtp request in
  (response = Raise (HTTPException 404 "No se encontró historial para la sesión")
   <-> history = None \/ history = Some [])
  /\ ((exists detail, response = Raise (HTTPException 404 detail))
      <-> history = None \/ history = Some [])
  /\ (history = None <-> sessions manager !! session_id request = None)
  /\ (forall session,
        sessions manager !! session_id request = Some session ->
        history = Some (map format_message
                          (LangChain.chat_memory (Session.memory session))))
  /\ (forall entries,
        history = Some entries -> entries <> [] ->
        let formatted_history :=
          String.concat newline
            (map (fun msg => (str_capitalize (role msg) ++ ": " ++ content msg)%string)
                 entries) in
        let prompt := (SUMMARY_PROMPT_HEAD ++ formatted_history ++ newline)%string in
        let summary :=
          match llm service prompt with
          | Return text => str_strip text
          | Raise _ => summary_fallback
          end in
        response =
        match smtp (email request) summary with
        | Return _ => Return summary_sent
        | Raise _ => Raise (HTTPException 500 "Error al enviar el correo")
        end).
Proof.
  intros history response. subst response.
  unfold create_summary, lifespan_started. cbn [session_manager chatbot_service].
  fold history.
  assert (Hunknown : history = None <-> sessions manager !! session_id request = None).
  { subst history. unfold get_history, st_read. cbn [fst].
    destruct (sessions manager !! session_id request); split; congruence. }
  assert (Hknown : forall session,
             sessions manager !! session_id request = Some session ->
             history = Some (map format_message
                               (LangChain.chat_memory (Session.memory session)))).
  { intros session Hs. subst history. unfold get_history, st_read. cbn [fst].
    rewrite Hs. reflexivity. }
  assert (Hsummary : forall entries,
             (if negb (send_summary_email smtp (email request)
                         (generate_summary (llm service) entries))
              then Raise (HTTPException 500 "Error al enviar el correo")
              else Return summary_sent)
             = match smtp (email request)
                       match llm service
                               (SUMMARY_PROMPT_HEAD
                                ++ String.concat newline
                                     (map (fun msg =>
                                             (str_capitalize (role msg) ++ ": "
                                              ++ content msg)%string) entries)
                                ++ newline)%string with
                       | Return text => str_strip text
                       | Raise _ => summary_fallback
                       end with
               | Return _ => Return summary_sent
               | Raise _ => Raise (HTTPException 500 "Error al enviar el correo")
               end).
  { intros entries. unfold send_summary_email, generate_summary, summary_prompt.
    destruct (llm service _); destruct (smtp _ _); reflexivity. }
  destruct history as [[|entry entries]|]; cbn [history_truthy negb];
    try change (default [] (Some (entry :: entries))) with (entry :: entries).
  - split; [tauto|]. split; [split; eauto|].
    split; [exact Hunknown|]. split; [exact Hknown|]. congruence.
  - rewrite Hsummary.
    split; [split; [|intros [H|H]; discriminate H]|].
    { destruct (smtp _ _); intros [= H]; discriminate H. }
    split; [split; [|intros [H|H]; discriminate H]|].
    { destruct (smtp _ _); intros [detail [= H]]; discriminate H. }
    split; [exact Hunknown|]. split; [exact Hknown|].
    intros entries' [= <-] _. cbv zeta. destruct (smtp _ _); reflexivity.
  - split; [tauto|]. split; [split; eauto|].
    split; [exact Hunknown|]. split; [exact Hknown|]. congruence.
Qed.

(** Outside the life of the application no service is registered and
    the endpoint answers with the internal error, whatever the session. *)
Lemma summary_without_services smtp request :
  create_summary lifespan_stopped smtp request
  = Raise (HTTPException 500 "Error interno del servidor").
Proof. reflexivity. Qed.

End SummaryFacts.

Lemma generate_summary_falls_back_witness :
  generate_summary (fun _ => Raise (Exception "503"))
    [ {| role := "user"; content := "uno" |} ] = summary_fallback
  /\ generate_summary (fun _ => Return "  Temas: uno  ")
    [ {| role := "user"; content := "uno" |} ] = "Temas: uno".
Proof.
  split.
  - exact (proj1 (generate_summary_falls_back (fun _ => Raise (Exception "503"))
                    [ {| role := "user"; content := "uno" |} ])
                 (Exception "503") eq_refl).
  - exact (proj2 (generate_summary_falls_back (fun _ => Return "  Temas: uno  ")
                    [ {| role := "user"; content := "uno" |} ])
                 "  Temas: uno  " eq_refl).
Defined.

(** A session with one exchange, a backend that returns the prompt it is
    given, and a mail transport that accepts a summary only if the two
    lines of the exchange are in it; the other session is unknown. *)
Lemma summary_not_found_iff_no_history_witness :
  let manager :=
    serve_all [ Turn 0 (ChainReturns "") "Hola" (Some "s");
                Turn 0 (ChainReturns "Respira") "estoy triste" (Some "s") ] in
  let service := {| llm := fun prompt => Return prompt |} in
  let smtp := fun (_ summary : string) =>
    if str_contains ("User: estoy triste" ++ newline ++ "Assistant: Respira")%string
         summary
    then Return tt else Raise (Exception "sin historial") in
  create_summary (lifespan_started service manager) smtp
    {| session_id := "s"; email := "a@b.c" |}
  = Return summary_sent
  /\ create_summary (lifespan_started service manager) smtp
       {| session_id := "nadie"; email := "a@b.c" |}
     = Raise (HTTPException 404 "No se encontró historial para la sesión").
Proof.
  intros manager service smtp. split.
  - assert (Hh : fst (get_history "s" manager)
                 = Some (exchange "estoy triste" "Respira"))
      by (vm_compute; reflexivity).
    destruct (summary_not_found_iff_no_history service manager smtp
                {| session_id := "s"; email := "a@b.c" |}) as (_ & _ & _ & _ & Hsum).
    rewrite (Hsum (exchange "estoy triste" "Respira") Hh ltac:(discriminate)).
    vm_compute. reflexivity.
  - apply (proj1 (summary_not_found_iff_no_history service manager smtp
                    {| session_id := "nadie"; email := "a@b.c" |})).
    left. vm_compute. reflexivity.
Defined.

(** A run that returns an answer, and a run that returns the empty
    answer. *)
Lemma yielded_fragments_are_not_empty_witness :
  let self := snd (mark_as_greeted "s" SessionManager_init) in
  yielded (stream_response 0 (ChainReturns "Respira hondo") "me siento triste hoy"
             (Some "s") self)
  = ["Respira hondo"]
  /\ yielded (stream_response 0 (ChainReturns "") "me siento triste hoy"
                (Some "s") self)
     = [].
Proof.
  intros self. split.
  - exact (proj2 (yielded_fragments_are_not_empty 0 (ChainReturns "Respira hondo")
                    "me siento triste hoy" (Some "s") self) eq_refl).
  - exact (proj2 (yielded_fragments_are_not_empty 0 (ChainReturns "")
                    "me siento triste hoy" (Some "s") self) eq_refl).
Defined.

(* ===================================================================== *)
(** * Further properties of the session store *)
(* ===================================================================== *)

(** X1. A name saved with [save_name] is the one [get_name] returns and
    [has_name] reports; saving a name neither marks the session as
    greeted nor touches its history (which is the empty list if the
    session had to be created). *)
Theorem save_name_then_get_name (self : SessionManager) (session_id name : string) :
  let self' := snd (save_name session_id name self) in
  fst (get_name session_id self') = Some name
  /\ fst (has_name session_id self') = true
  /\ fst (has_greeted session_id self') = fst (has_greeted session_id self)
  /\ fst (get_history session_id self')
     = Some (default [] (fst (get_history session_id self))).
Proof.
  cbv zeta. rewrite save_name_sessions.
  unfold get_name, has_name, has_greeted, get_history, st_read.
  cbn [fst sessions]. rewrite lookup_insert_eq.
  destruct (sessions self !! session_id) as [session|]; repeat split.
Qed.

(** X2. Every operation of the store works on the entry of the id it is
    given and on no other: the entries stored under other ids are the
    same before and after. *)
Theorem store_operations_touch_one_session
    (self : SessionManager) (session_id other name : string) :
  other <> session_id ->
  sessions (snd (_get_or_create_session session_id self)) !! other
    = sessions self !! other
  /\ sessions (snd (get_or_create_memory session_id self)) !! other
    = sessions self !! other
  /\ sessions (snd (save_name session_id name self)) !! other
    = sessions self !! other
  /\ sessions (snd (mark_as_greeted session_id self)) !! other
    = sessions self !! other
  /\ sessions (snd (clear_session session_id self)) !! other
    = sessions self !! other.
Proof.
  intros Hne.
  assert (Hcreate : sessions (snd (_get_or_create_session session_id self)) !! other
                    = sessions self !! other).
  { unfold _get_or_create_session.
    destruct (sessions self !! session_id); cbn [snd sessions]; [reflexivity|].
    apply lookup_insert_ne. congruence. }
  split; [exact Hcreate|]. split.
  - unfold get_or_create_memory, st_bind, st_ret.
    destruct (_get_or_create_session session_id self) as [session self1].
    exact Hcreate.
  - rewrite save_name_sessions, mark_as_greeted_sessions.
    unfold clear_session. cbn [snd sessions].
    rewrite !lookup_insert_ne by congruence.
    rewrite lookup_delete_ne by congruence. repeat split.
Qed.

Lemma store_operations_touch_one_session_witness :
  let self := snd (save_name "b" "Marta" SessionManager_init) in
  fst (get_name "b" (snd (clear_session "a" (snd (mark_as_greeted "a" self)))))
  = Some "Marta".
Proof.
  intros self.
  destruct (store_operations_touch_one_session (snd (mark_as_greeted "a" self))
              "a" "b" "x" ltac:(discriminate)) as (_ & _ & _ & _ & Hclear).
  destruct (store_operations_touch_one_session self
              "a" "b" "x" ltac:(discriminate)) as (_ & _ & _ & Hmark & _).
  unfold get_name, st_read. cbn [fst]. rewrite Hclear, Hmark. reflexivity.
Defined.

(** X3. After [clear_session] nothing is known of the id: no name, not
    greeted, no history ([None], not the empty list).  Clearing an id
    that is not stored changes nothing, so clearing twice is clearing
    once. *)
Theorem clear_session_forgets (self : SessionManager) (session_id : string) :
  let self' := snd (clear_session session_id self) in
  fst (get_name session_id self') = None
  /\ fst (has_name session_id self') = false
  /\ fst (has_greeted session_id self') = false
  /\ fst (get_history session_id self') = None
  /\ (sessions self !! session_id = None -> self' = self)
  /\ snd (clear_session session_id self') = self'.
Proof.
  cbv zeta. unfold clear_session, get_name, has_name, has_greeted, get_history,
    st_read. cbn [fst snd sessions]. rewrite lookup_delete_eq.
  repeat split.
  - intros Hnone. destruct self as [m]. cbn [sessions] in *.
    f_equal. apply delete_id. exact Hnone.
  - f_equal. apply delete_delete_eq.
Qed.

Lemma clear_session_forgets_witness :
  snd (clear_session "nadie" SessionManager_init) = SessionManager_init.
Proof.
  exact (proj1 (proj2 (proj2 (proj2 (proj2
           (clear_session_forgets SessionManager_init "nadie"))))) eq_refl).
Defined.

(** X4. [mark_as_greeted] sets the flag and nothing else: the name and the
    history of a stored session stay as they are, and marking a second
    time changes nothing. *)
Theorem mark_as_greeted_only_sets_flag (self : SessionManager) (session_id : string) :
  let self' := snd (mark_as_greeted session_id self) in
  fst (has_greeted session_id self') = true
  /\ fst (get_name session_id self') = fst (get_name session_id self)
  /\ fst (get_history session_id self')
     = Some (default [] (fst (get_history session_id self)))
  /\ snd (mark_as_greeted session_id self') = self'.
Proof.
  cbv zeta. rewrite !mark_as_greeted_sessions.
  unfold get_name, has_greeted, get_history, st_read.
  cbn [fst sessions]. rewrite lookup_insert_eq.
  split; [reflexivity|].
  split; [destruct (sessions self !! session_id); reflexivity|].
  split; [destruct (sessions self !! session_id); reflexivity|].
  f_equal. rewrite insert_insert_eq. reflexivity.
Qed.

Lemma resolved_id_fixed rand rand' session_id :
  get_or_create_session_id rand'
    (Some (get_or_create_session_id rand session_id))
  = get_or_create_session_id rand session_id.
Proof.
  unfold get_or_create_session_id at 1.
  rewrite (resolved_id_truthy rand session_id). reflexivity.
Qed.

(** X5. The id that [get_or_create_session_id] returns is never the empty
    string, and handing it in again gives it back, whatever random bytes
    would be available: the id a turn resolves is the id the next turn
    works on. *)
Theorem resolved_session_id_is_stable
    (rand rand' : N) (session_id : option string) :
  let resolved := get_or_create_session_id rand session_id in
  resolved <> ""
  /\ get_or_create_session_id rand' (Some resolved) = resolved.
Proof.
  cbv zeta. pose proof (resolved_id_truthy rand session_id) as Ht.
  split.
  - intros Heq. rewrite Heq in Ht. discriminate Ht.
  - apply resolved_id_fixed.
Qed.

(** X6. [get_or_create_memory] on an id that is not stored registers a new
    session for it, not greeted, without name and with the empty history,
    and returns its memory with window 4; on a stored id it returns the
    stored memory and leaves the store as it is. *)
Theorem get_or_create_memory_registers (self : SessionManager) (session_id : string) :
  (sessions self !! session_id = None ->
     let self' := snd (get_or_create_memory session_id self) in
     fst (get_or_create_memory session_id self) = new_memory
     /\ LangChain.k new_memory = 4
     /\ fst (has_greeted session_id self') = false
     /\ fst (get_name session_id self') = None
     /\ fst (get_history session_id self') = Some [])
  /\ (forall session,
        sessions self !! session_id = Some session ->
        get_or_create_memory session_id self = (Session.memory session, self)).
Proof.
  unfold get_or_create_memory, st_bind, st_ret, _get_or_create_session.
  split.
  - intros Hnone. rewrite Hnone. cbn [fst snd].
    unfold has_greeted, get_name, get_history, st_read. cbn [fst sessions].
    rewrite lookup_insert_eq. repeat split.
  - intros session Hs. rewrite Hs. reflexivity.
Qed.

Lemma get_or_create_memory_registers_witness :
  fst (get_history "nadie" (snd (get_or_create_memory "nadie" SessionManager_init)))
  = Some [].
Proof.
  exact (proj2 (proj2 (proj2 (proj2
           (proj1 (get_or_create_memory_registers SessionManager_init "nadie")
                  eq_refl))))).
Defined.

(* ===================================================================== *)
(** * Further properties of the turns *)
(* ===================================================================== *)

Section TurnFacts.
Context {py : PyStr}.

(** The store after a turn, entry by entry. *)
Lemma stream_response_sessions rand chain user_input session_id self other :
  let sid := get_or_create_session_id rand session_id in
  sessions (self_after (stream_response rand chain user_input session_id self)) !! other
  = if decide (other = sid) then
      match sessions self !! sid with
      | Some session =>
          if Session.greeted session then
            match failure chain with
            | Some _ => Some session
            | None =>
                Some (Session.set_memory
                        (LangChain.save_context user_input
                           (answer_text (produced chain))) session)
            end
          else Some (Session.set_greeted true session)
      | None => Some (Session.set_greeted true new_session)
      end
    else sessions self !! other.
Proof.
  intros sid.
  destruct (fst (has_greeted sid self)) eqn:Hg.
  - rewrite (stream_response_active rand chain user_input session_id self Hg).
    cbn [self_after]. fold sid.
    unfold has_greeted, st_read in Hg. cbn [fst] in Hg.
    destruct (sessions self !! sid) as [session|] eqn:Hs; [|discriminate Hg].
    rewrite Hg.
    destruct (failure chain).
    + destruct (decide (other = sid)) as [->|_]; [exact Hs|reflexivity].
    + unfold session_setitem. cbn [snd sessions].
      rewrite (alter_alt_Some _ _ _ _ Hs).
      destruct (decide (other = sid)) as [->|Hne].
      * apply lookup_insert_eq.
      * apply lookup_insert_ne. congruence.
  - rewrite (stream_response_greeting rand chain user_input session_id self Hg).
    cbn [self_after]. fold sid. rewrite mark_as_greeted_sessions. cbn [sessions].
    unfold has_greeted, st_read in Hg. cbn [fst] in Hg.
    destruct (decide (other = sid)) as [->|Hne].
    + rewrite lookup_insert_eq.
      destruct (sessions self !! sid) as [session|]; [|reflexivity].
      rewrite Hg. reflexivity.
    + apply lookup_insert_ne. congruence.
Qed.

Lemma fragments_nil items :
  fragments items = [] <-> Forall (fun chunk => dict_get chunk "answer" "" = "") items.
Proof.
  induction items as [|chunk items IH]; [split; constructor|].
  rewrite fragments_cons, Forall_cons.
  destruct (dict_get chunk "answer" "") eqn:E; simpl.
  - rewrite IH. tauto.
  - split; [discriminate|]. intros [H _]. discriminate H.
Qed.

(** X8. A turn yields nothing at all exactly when the session was greeted,
    the chain's run ended without exception and none of its dictionaries
    had a non-empty ["answer"]: only then does the caller get an empty
    response. *)
Theorem response_is_empty_iff
    (rand : N) (chain : chain_run) (user_input : string)
    (session_id : option string) (self : SessionManager) :
  let sid := get_or_create_session_id rand session_id in
  yielded (stream_response rand chain user_input session_id self) = []
  <-> fst (has_greeted sid self) = true
      /\ failure chain = None
      /\ Forall (fun chunk => dict_get chunk "answer" "" = "") (produced chain).
Proof.
  intros sid. rewrite <- fragments_nil.
  destruct (fst (has_greeted sid self)) eqn:Hg.
  - rewrite (stream_response_active rand chain user_input session_id self Hg).
    cbn [yielded]. destruct (failure chain) as [e|].
    + split.
      * intros H. apply app_eq_nil in H. destruct H as [_ H]. discriminate H.
      * intros (_ & H & _). discriminate H.
    + rewrite app_nil_r. tauto.
  - rewrite (stream_response_greeting rand chain user_input session_id self Hg).
    cbn [yielded]. split; [discriminate|]. intros [H _]. discriminate H.
Qed.

(** X9. A turn works on the session of its id only: the entry of every
    other id, and with it the history, the flag and the name that the
    store reports for it, is the same before and after. *)
Theorem turn_leaves_other_sessions
    (rand : N) (chain : chain_run) (user_input : string)
    (session_id : option string) (self : SessionManager) (other : string) :
  let sid := get_or_create_session_id rand session_id in
  let self' := self_after (stream_response rand chain user_input session_id self) in
  other <> sid ->
  sessions self' !! other = sessions self !! other
  /\ fst (get_history other self') = fst (get_history other self)
  /\ fst (has_greeted other self') = fst (has_greeted other self)
  /\ fst (get_name other self') = fst (get_name other self).
Proof.
  intros sid self' Hne.
  assert (H : sessions self' !! other = sessions self !! other).
  { subst self'. rewrite stream_response_sessions. fold sid.
    destruct (decide (other = sid)); [contradiction|reflexivity]. }
  unfold get_history, has_greeted, get_name, st_read. cbn [fst].
  rewrite H. repeat split.
Qed.

(** X10. After a turn the session of its id is marked as greeted, whatever
    the turn did; a session that was greeted before a turn, of this or
    of another id, is greeted after it; and the next turn on the id runs
    the chain and yields its fragments, not a greeting. *)
Theorem greeting_is_given_once
    (rand rand' : N) (chain chain' : chain_run) (user_input user_input' : string)
    (session_id : option string) (self : SessionManager) :
  let sid := get_or_create_session_id rand session_id in
  let self' := self_after (stream_response rand chain user_input session_id self) in
  fst (has_greeted sid self') = true
  /\ (forall other, fst (has_greeted other self) = true ->
                    fst (has_greeted other self') = true)
  /\ yielded (stream_response rand' chain' user_input' (Some sid) self')
     = fragments (produced chain')
       ++ match failure chain' with Some _ => [error_msg] | None => [] end.
Proof.
  intros sid self'.
  assert (Hafter : forall other,
             other = sid \/ fst (has_greeted other self) = true ->
             fst (has_greeted other self') = true).
  { intros other Hother. subst self'.
    unfold has_greeted, st_read in *. cbn [fst] in *.
    rewrite stream_response_sessions. fold sid.
    destruct (decide (other = sid)) as [->|Hne].
    - destruct (sessions self !! sid) as [session|]; [|reflexivity].
      destruct (Session.greeted session) eqn:Hgr; [|reflexivity].
      destruct (failure chain); [exact Hgr|exact Hgr].
    - destruct Hother as [Heq|Hg]; [contradiction|exact Hg]. }
  split; [apply Hafter; left; reflexivity|].
  split; [intros other Hg; apply Hafter; right; exact Hg|].
  assert (Hsid : get_or_create_session_id rand' (Some sid) = sid)
    by apply resolved_id_fixed.
  pose proof (stream_response_active rand' chain' user_input' (Some sid) self') as H.
  cbv zeta in H. rewrite Hsid in H.
  rewrite H; [reflexivity|]. apply Hafter. left; reflexivity.
Qed.

(** X14. A turn on an id that was just cleared is a first turn again: it
    yields the greeting, and afterwards the session is greeted and its
    history is the empty list, whatever had been recorded before. *)
Theorem turn_after_clear_greets
    (rand : N) (chain : chain_run) (user_input session_id : string)
    (self : SessionManager) :
  session_id <> "" ->
  let cleared := snd (clear_session session_id self) in
  let turn := stream_response rand chain user_input (Some session_id) cleared in
  yielded turn = [greeting_of user_input]
  /\ fst (has_greeted session_id (self_after turn)) = true
  /\ fst (get_history session_id (self_after turn)) = Some [].
Proof.
  intros Hne cleared turn.
  assert (Hsid : get_or_create_session_id rand (Some session_id) = session_id).
  { unfold get_or_create_session_id.
    destruct session_id; [congruence|reflexivity]. }
  assert (Hnone : sessions cleared !! session_id = None).
  { subst cleared. unfold clear_session. cbn [snd sessions]. apply lookup_delete_eq. }
  assert (Hg : fst (has_greeted (get_or_create_session_id rand (Some session_id))
                      cleared) = false).
  { rewrite Hsid. unfold has_greeted, st_read. cbn [fst]. rewrite Hnone. reflexivity. }
  subst turn.
  rewrite (stream_response_greeting rand chain user_input (Some session_id) cleared Hg).
  cbn [yielded self_after]. rewrite Hsid, mark_as_greeted_sessions, Hnone.
  unfold has_greeted, get_history, st_read. cbn [fst sessions].
  rewrite lookup_insert_eq. repeat split.
Qed.

End TurnFacts.

Lemma turn_leaves_other_sessions_witness :
  let self := self_after (stream_response 0 (ChainReturns "")
                            "Hola" (Some "a") SessionManager_init) in
  let chain := ChainReturns "Respira" in
  fst (get_history "a"
         (self_after (stream_response 0 chain "estoy triste" (Some "b") self)))
  = Some [].
Proof.
  intros self chain.
  rewrite (proj1 (proj2 (turn_leaves_other_sessions 0 chain "estoy triste"
                           (Some "b") self "a" ltac:(discriminate)))).
  reflexivity.
Defined.

Lemma turn_after_clear_greets_witness :
  let self := snd (mark_as_greeted "s" SessionManager_init) in
  yielded (stream_response 0 (ChainReturns "") "soy Ana"
             (Some "s") (snd (clear_session "s" self)))
  = ["¡Hola Ana! ¿En qué puedo ayudarte hoy?"].
Proof.
  intros self.
  exact (proj1 (turn_after_clear_greets 0 (ChainReturns "")
                  "soy Ana" "s" self ltac:(discriminate))).
Defined.

(* ===================================================================== *)
(** * Further properties of the served store *)
(* ===================================================================== *)

Section ServedFacts.
Context {py : PyStr}.

(** A property of the stored sessions that the new session has once it
    is greeted, and that greeting and saving an exchange keep, holds
    after every request if it held before. *)
Lemma serve_preserves (P : string -> Session.t -> Prop) self r :
  (forall sid, str_truthy sid = true -> P sid (Session.set_greeted true new_session)) ->
  (forall sid s, P sid s -> P sid (Session.set_greeted true s)) ->
  (forall sid s q a, P sid s ->
     P sid (Session.set_memory (LangChain.save_context q a) s)) ->
  (forall sid s, sessions self !! sid = Some s -> P sid s) ->
  forall sid s, sessions (serve self r) !! sid = Some s -> P sid s.
Proof.
  intros Hnew Hgreet Hsave Hself sid s.
  destruct r as [rand chain user_input session_id|session_id]; cbn [serve].
  - rewrite stream_response_sessions.
    destruct (decide (sid = get_or_create_session_id rand session_id)) as [->|_];
      [|apply Hself].
    destruct (sessions self !! get_or_create_session_id rand session_id)
      as [old|] eqn:Hold.
    + destruct (Session.greeted old).
      * destruct (failure chain); intros [= <-]; [|apply Hsave]; eapply Hself, Hold.
      * intros [= <-]. eapply Hgreet, Hself, Hold.
    + intros [= <-]. apply Hnew, resolved_id_truthy.
  - unfold clear_session. cbn [snd sessions].
    intros H. apply lookup_delete_Some in H. apply Hself, H.
Qed.

Lemma serve_all_preserves (P : string -> Session.t -> Prop) requests :
  (forall sid, str_truthy sid = true -> P sid (Session.set_greeted true new_session)) ->
  (forall sid s, P sid s -> P sid (Session.set_greeted true s)) ->
  (forall sid s q a, P sid s ->
     P sid (Session.set_memory (LangChain.save_context q a) s)) ->
  forall sid s, sessions (serve_all requests) !! sid = Some s -> P sid s.
Proof.
  intros Hnew Hgreet Hsave. unfold serve_all.
  assert (Hgen : forall self,
             (forall sid s, sessions self !! sid = Some s -> P sid s) ->
             forall sid s, sessions (fold_left serve requests self) !! sid = Some s ->
                           P sid s).
  { induction requests as [|r requests IH]; intros self Hself; [exact Hself|].
    cbn [fold_left]. apply IH. apply serve_preserves; assumption. }
  apply Hgen. intros sid s. unfold SessionManager_init. cbn [sessions].
  rewrite lookup_empty. discriminate.
Qed.

(** X11. The engine never stores a name: whatever requests were served,
    [get_name] gives [None] and [has_name] gives [False] for every id,
    also for sessions whose greeting carried a detected name. *)
Theorem served_sessions_have_no_name (requests : list request) (session_id : string) :
  fst (get_name session_id (serve_all requests)) = None
  /\ fst (has_name session_id (serve_all requests)) = false.
Proof.
  unfold get_name, has_name, st_read. cbn [fst].
  destruct (sessions (serve_all requests) !! session_id) as [session|] eqn:Hs;
    [|split; reflexivity].
  assert (Hname : Session.name session = None).
  { revert Hs.
    apply (serve_all_preserves (fun _ s => Session.name s = None));
      intros; auto. }
  rewrite Hname. split; reflexivity.
Qed.

Lemma format_exchanges (pairs : list (string * string)) :
  map format_message
    (flat_map (fun p => [LangChain.HumanMessage p.1; LangChain.AIMessage p.2]) pairs)
  = flat_map (fun p => exchange p.1 p.2) pairs.
Proof.
  induction pairs as [|p pairs IH]; [reflexivity|].
  cbn [flat_map]. rewrite map_app, IH. reflexivity.
Qed.

Lemma length_exchanges (pairs : list (string * string)) :
  length (flat_map (fun p => exchange p.1 p.2) pairs) = 2 * length pairs.
Proof.
  induction pairs as [|p pairs IH]; [reflexivity|].
  cbn [flat_map]. rewrite length_app, IH. simpl. lia.
Qed.

(** X12. Whatever requests were served, the history of a session is made
    of whole exchanges: a user entry followed by an assistant entry, one
    exchange for every turn in which the chain returned (the chain saves
    the two messages together, before its dictionary is produced); so it
    has an even number of entries, starts with the user and alternates. *)
Theorem served_history_is_exchanges
    (requests : list request) (session_id : string) (history : list ChatEntry) :
  fst (get_history session_id (serve_all requests)) = Some history ->
  exists pairs : list (string * string),
    history = flat_map (fun p => exchange p.1 p.2) pairs
    /\ length history = 2 * length pairs.
Proof.
  unfold get_history, st_read. cbn [fst].
  destruct (sessions (serve_all requests) !! session_id) as [session|] eqn:Hs;
    [|discriminate].
  intros [= <-].
  assert (Hpairs : exists pairs : list (string * string),
             LangChain.chat_memory (Session.memory session)
             = flat_map (fun p => [LangChain.HumanMessage p.1;
                                   LangChain.AIMessage p.2]) pairs).
  { revert Hs.
    apply (serve_all_preserves
             (fun _ s => exists pairs : list (string * string),
                  LangChain.chat_memory (Session.memory s)
                  = flat_map (fun p => [LangChain.HumanMessage p.1;
                                        LangChain.AIMessage p.2]) pairs)).
    - intros _ _. exists []. reflexivity.
    - intros _ s Hp. exact Hp.
    - intros _ s q a [pairs Hp]. exists (pairs ++ [(q, a)]).
      cbn [Session.set_memory Session.memory LangChain.save_context
           LangChain.chat_memory].
      rewrite Hp, flat_map_app. reflexivity. }
  destruct Hpairs as [pairs Hp]. exists pairs.
  rewrite Hp, format_exchanges. split; [reflexivity|apply length_exchanges].
Qed.

(** X13. Answered turns add up: from a store in which the session is
    greeted, any number of turns on its id in which the chain returns
    leave as history the old history followed by one exchange per turn,
    in the order of the turns, each with the question of the turn and the
    answer the chain returned and saved. *)
Theorem completed_turns_append_in_order
    (turns : list (N * string * chain_run)) :
  forall (self : SessionManager) (session_id : string) (session : Session.t),
  sessions self !! session_id = Some session ->
  Session.greeted session = true ->
  session_id <> "" ->
  Forall (fun t => failure t.2 = None) turns ->
  fst (get_history session_id (fold_left serve (turns_of session_id turns) self))
  = Some (map format_message (LangChain.chat_memory (Session.memory session))
          ++ flat_map (fun t => exchange t.1.2 (answer_text (produced t.2))) turns).
Proof.
  induction turns as [|[[rand question] chain] turns IH];
    intros self session_id session Hs Hgr Hne Hdone.
  - cbn [turns_of map fold_left flat_map]. rewrite app_nil_r.
    unfold get_history, st_read. cbn [fst]. rewrite Hs. reflexivity.
  - apply Forall_cons in Hdone. destruct Hdone as [Hd Hdone]. cbn [snd] in Hd.
    cbn [turns_of map fold_left serve fst snd flat_map].
    fold (turns_of session_id turns).
    assert (Hsid : get_or_create_session_id rand (Some session_id) = session_id).
    { unfold get_or_create_session_id. destruct session_id; [congruence|reflexivity]. }
    set (session' := Session.set_memory
                       (LangChain.save_context question (answer_text (produced chain)))
                       session).
    assert (Hs' : sessions (self_after (stream_response rand chain question
                                          (Some session_id) self)) !! session_id
                  = Some session').
    { rewrite stream_response_sessions, Hsid, Hs, Hgr, Hd.
      destruct (decide (session_id = session_id)); [reflexivity|congruence]. }
    rewrite (IH _ session_id session' Hs' Hgr Hne Hdone).
    subst session'.
    cbn [Session.set_memory Session.memory LangChain.save_context LangChain.chat_memory].
    rewrite map_app, <- app_assoc. reflexivity.
Qed.

End ServedFacts.

Lemma served_history_is_exchanges_witness :
  let answered a := ChainReturns a in
  let requests :=
    [ Turn 0 (answered "") "Hola" (Some "s");
      Turn 0 (answered "a1") "uno" (Some "s");
      Turn 0 (ChainRaises (Exception "timeout")) "dos" (Some "s");
      Turn 0 (answered "a3") "tres" (Some "s") ] in
  exists pairs : list (string * string),
    exchange "uno" "a1" ++ exchange "tres" "a3"
    = flat_map (fun p => exchange p.1 p.2) pairs.
Proof.
  intros answered requests.
  assert (Hh : fst (get_history "s" (serve_all requests))
               = Some (exchange "uno" "a1" ++ exchange "tres" "a3"))
    by (vm_compute; reflexivity).
  destruct (served_history_is_exchanges requests "s" _ Hh) as [pairs [Hp _]].
  exists pairs. exact Hp.
Defined.

Lemma completed_turns_append_in_order_witness :
  let answered a := ChainReturns a in
  let self := snd (mark_as_greeted "s" SessionManager_init) in
  fst (get_history "s"
         (fold_left serve
            (turns_of "s" [ (0%N, "uno", answered "a1"); (0%N, "dos", answered "a2") ])
            self))
  = Some (exchange "uno" "a1" ++ exchange "dos" "a2").
Proof.
  intros answered self.
  exact (completed_turns_append_in_order
           [ (0%N, "uno", answered "a1"); (0%N, "dos", answered "a2") ]
           self "s" (Session.set_greeted true new_session)
           eq_refl eq_refl ltac:(discriminate)
           ltac:(repeat constructor)).
Defined.

(* ===================================================================== *)
(** * Further properties of name detection and of the summaries *)
(* ===================================================================== *)

Section DetectFacts.
Context {py : PyStr}.

Lemma name_scan_Some tokens : forall name,
  name_scan tokens = Some name ->
  exists pre kw tok rest,
    tokens = pre ++ kw :: tok :: rest
    /\ Forall (fun t => is_keyword t = false) pre
    /\ is_keyword kw = true
    /\ name = str_capitalize tok.
Proof.
  induction tokens as [|t tokens IH]; intros name; [discriminate|].
  cbn [name_scan]. destruct tokens as [|nxt tokens']; [discriminate|].
  destruct (is_keyword t) eqn:Hk.
  - intros [= <-]. exists [], t, nxt, tokens'.
    split; [reflexivity|]. split; [constructor|]. split; [exact Hk|reflexivity].
  - intros Hscan.
    destruct (IH name Hscan) as (pre & kw & tok & rest & Heq & Hpre & Hkw & Hname).
    exists (t :: pre), kw, tok, rest.
    split; [rewrite Heq; reflexivity|].
    split; [constructor; assumption|]. split; assumption.
Qed.

(** X15. A name that [detect_name_from_input] returns is never the empty
    string and is the capitalised token right after the first keyword of
    the input; an input of fewer than two tokens, the empty input among
    them, gives [None]. *)
Theorem detected_name_follows_keyword (user_input : string) :
  (forall name,
      detect_name_from_input user_input = Return (Some name) ->
      name <> ""
      /\ exists pre kw tok rest,
           str_split user_input = pre ++ kw :: tok :: rest
           /\ Forall (fun t => is_keyword t = false) pre
           /\ is_keyword kw = true
           /\ name = str_capitalize tok)
  /\ (length (str_split user_input) <= 1 ->
      detect_name_from_input user_input = Return None).
Proof.
  rewrite detect_name_scan. split.
  - intros name [= Hscan]. split.
    + eapply name_scan_nonempty; [apply str_split_nonempty|exact Hscan].
    + apply name_scan_Some. exact Hscan.
  - intros Hlen. destruct (str_split user_input) as [|t [|u rest]];
      [reflexivity|reflexivity|simpl in Hlen; lia].
Qed.

End DetectFacts.

Lemma detected_name_follows_keyword_witness :
  detect_name_from_input "soy" = Return None
  /\ exists pre kw tok rest,
       str_split "Hola, me llamo ana maria" = pre ++ kw :: tok :: rest
       /\ "Ana" = str_capitalize tok.
Proof.
  split.
  - apply (proj2 (detected_name_follows_keyword "soy")). vm_compute. lia.
  - assert (Hd : detect_name_from_input "Hola, me llamo ana maria"
                 = Return (Some "Ana")) by reflexivity.
    destruct (proj1 (detected_name_follows_keyword "Hola, me llamo ana maria")
                "Ana" Hd) as (_ & pre & kw & tok & rest & Hs & _ & _ & Hn).
    exists pre, kw, tok, rest. split; [exact Hs|exact Hn].
Defined.

Section SummaryEndpointFacts.
Context {py : PyStr}.

(** X16. When the model backend is down, the summary endpoint does not
    fail for that: the fixed fallback text is what is mailed as the
    summary, and the answer is the success message if the mail goes out
    and the mail error if it does not. *)
Theorem summary_mails_fallback_when_backend_fails
    (service : ChatbotService) (manager : SessionManager)
    (smtp : string -> string -> outcome unit) (request : SummaryRequest) :
  history_truthy (fst (get_history (session_id request) manager)) = true ->
  (forall prompt, exists e, llm service prompt = Raise e) ->
  create_summary (lifespan_started service manager) smtp request
  = if send_summary_email smtp (email request) summary_fallback
    then Return summary_sent
    else Raise (HTTPException 500 "Error al enviar el correo").
Proof.
  intros Hhist Hdown.
  unfold create_summary, lifespan_started. cbn [session_manager chatbot_service].
  rewrite Hhist. cbn [negb].
  assert (Hfb : forall entries, generate_summary (llm service) entries = summary_fallback).
  { intros entries. unfold generate_summary.
    match goal with |- context [llm service ?p] => destruct (Hdown p) as [e He]; rewrite He end.
    reflexivity. }
  rewrite Hfb. destruct (send_summary_email _ _ _); reflexivity.
Qed.

(** X17. The summary endpoint ends in one of three ways only: the success
    message, the 404 error or a 500 error.  It answers with the success
    message exactly when both services are registered, the history of
    the session is not empty and the SMTP dialogue for the generated
    text ends without exception. *)
Theorem create_summary_outcomes
    (service_instances : ServiceInstances)
    (smtp : string -> string -> outcome unit) (request : SummaryRequest) :
  let response := create_summary service_instances smtp request in
  (response = Return summary_sent
   \/ exists detail, response = Raise (HTTPException 404 detail)
                     \/ response = Raise (HTTPException 500 detail))
  /\ (response = Return summary_sent
      <-> exists manager service entry entries,
            session_manager service_instances = Some manager
            /\ chatbot_service service_instances = Some service
            /\ fst (get_history (session_id request) manager) = Some (entry :: entries)
            /\ smtp (email request)
                 (generate_summary (llm service) (entry :: entries)) = Return tt).
Proof.
  cbv zeta. unfold create_summary, send_summary_email.
  destruct (session_manager service_instances) as [manager|].
  2:{ split; [right; eexists; right; reflexivity|].
      split; [discriminate|]. intros (? & ? & ? & ? & H & _). discriminate H. }
  destruct (fst (get_history (session_id request) manager)) as [[|entry entries]|] eqn:Hh;
    cbn [history_truthy negb];
    try change (default [] (Some (entry :: entries))) with (entry :: entries).
  1,3: split; [right; eexists; left; reflexivity|];
       split; [discriminate|];
       intros (m & ? & ? & ? & [= <-] & _ & H & _); rewrite Hh in H; discriminate H.
  destruct (chatbot_service service_instances) as [service|].
  2:{ split; [right; eexists; right; reflexivity|].
      split; [discriminate|]. intros (? & ? & ? & ? & _ & H & _). discriminate H. }
  destruct (smtp (email request) (generate_summary (llm service) (entry :: entries)))
    as [[]|e] eqn:Hs; cbn [negb].
  - split; [left; reflexivity|]. split; [|reflexivity].
    intros _. exists manager, service, entry, entries.
    split; [reflexivity|]. split; [reflexivity|]. split; [exact Hh|exact Hs].
  - split; [right; eexists; right; reflexivity|].
    split; [discriminate|].
    intros (m & sv & en & ens & [= <-] & [= <-] & H & Hs').
    rewrite Hh in H. injection H as <- <-. rewrite Hs in Hs'. discriminate Hs'.
Qed.

(** X18. A session that has only been greeted has nothing to summarise:
    after the first turn of a new session the summary endpoint answers
    404; after a completed second turn it generates the summary from the
    one exchange of that turn. *)
Theorem summary_needs_a_completed_turn
    (service : ChatbotService) (smtp : string -> string -> outcome unit)
    (rand rand' : N) (chain chain' : chain_run) (user_input user_input' email : string)
    (session_id : option string) (self : SessionManager) :
  let sid := get_or_create_session_id rand session_id in
  let self1 := self_after (stream_response rand chain user_input session_id self) in
  let self2 := self_after (stream_response rand' chain' user_input' (Some sid) self1) in
  let request := {| session_id := sid; email := email |} in
  sessions self !! sid = None ->
  create_summary (lifespan_started service self1) smtp request
  = Raise (HTTPException 404 "No se encontró historial para la sesión")
  /\ (failure chain' = None ->
      create_summary (lifespan_started service self2) smtp request
      = if send_summary_email smtp email
             (generate_summary (llm service)
                (exchange user_input' (answer_text (produced chain'))))
        then Return summary_sent
        else Raise (HTTPException 500 "Error al enviar el correo")).
Proof.
  intros sid self1 self2 request Hnew.
  assert (H1 : sessions self1 !! sid = Some (Session.set_greeted true new_session)).
  { subst self1. rewrite stream_response_sessions. fold sid. rewrite Hnew.
    destruct (decide (sid = sid)); [reflexivity|congruence]. }
  split.
  - unfold create_summary, lifespan_started, get_history, st_read. subst request.
    simpl. rewrite H1. reflexivity.
  - intros Hdone.
    assert (H2 : sessions self2 !! sid
                 = Some (Session.set_memory
                           (LangChain.save_context user_input'
                              (answer_text (produced chain')))
                           (Session.set_greeted true new_session))).
    { assert (Hfix : get_or_create_session_id rand' (Some sid) = sid)
        by apply resolved_id_fixed.
      subst self2. rewrite stream_response_sessions, Hfix.
      rewrite H1, Hdone. cbn [Session.greeted Session.set_greeted].
      destruct (decide (sid = sid)); [reflexivity|congruence]. }
    unfold create_summary, lifespan_started, get_history, st_read. subst request.
    simpl. rewrite H2. simpl. destruct (send_summary_email _ _ _); reflexivity.
Qed.

End SummaryEndpointFacts.

Lemma summary_mails_fallback_when_backend_fails_witness :
  let chain := ChainReturns "Respira" in
  let manager :=
    serve_all [ Turn 0 chain "Hola" (Some "s"); Turn 0 chain "estoy triste" (Some "s") ] in
  create_summary
    (lifespan_started {| llm := fun _ => Raise (Exception "503") |} manager)
    (fun _ _ => Return tt) {| session_id := "s"; email := "a@b.c" |}
  = Return summary_sent.
Proof.
  intros chain manager.
  assert (Hh : history_truthy (fst (get_history "s" manager)) = true)
    by (vm_compute; reflexivity).
  exact (summary_mails_fallback_when_backend_fails
           {| llm := fun _ => Raise (Exception "503") |} manager
           (fun _ _ => Return tt) {| session_id := "s"; email := "a@b.c" |}
           Hh (fun _ => ex_intro _ (Exception "503") eq_refl)).
Defined.

Lemma summary_needs_a_completed_turn_witness :
  let chain := ChainReturns "Respira" in
  let self1 := self_after (stream_response 0 chain "Hola" (Some "s") SessionManager_init) in
  create_summary (lifespan_started {| llm := fun _ => Return "resumen" |} self1)
    (fun _ _ => Return tt) {| session_id := "s"; email := "a@b.c" |}
  = Raise (HTTPException 404 "No se encontró historial para la sesión").
Proof.
  intros chain self1.
  exact (proj1 (summary_needs_a_completed_turn
                  {| llm := fun _ => Return "resumen" |} (fun _ _ => Return tt)
                  0 0 chain chain "Hola" "estoy triste" "a@b.c" (Some "s")
                  SessionManager_init eq_refl)).
Defined.

(* ===================================================================== *)
(** * Properties of the chat endpoint *)
(* ===================================================================== *)

Lemma prefix_app (needle haystack : string) :
  String.prefix needle haystack = true
  <-> exists post, haystack = (needle ++ post)%string.
Proof.
  revert haystack. induction needle as [|c needle IH]; intros haystack.
  - split; [intros _; exists haystack; reflexivity|].
    intros _. destruct haystack; reflexivity.
  - destruct haystack as [|d haystack]; cbn [String.prefix].
    + split; [discriminate|]. intros [post H]. discriminate H.
    + destruct (ascii_dec c d) as [->|Hne].
      * rewrite IH. split; intros [post H]; exists post.
        -- rewrite H. reflexivity.
        -- injection H as H. exact H.
      * split; [discriminate|]. intros [post H]. injection H as H _. congruence.
Qed.

(** [str_contains] is the substring test. *)
Lemma str_contains_spec (needle haystack : string) :
  str_contains needle haystack = true
  <-> exists pre post, haystack = (pre ++ needle ++ post)%string.
Proof.
  induction haystack as [|d haystack IH]; cbn [str_contains].
  - rewrite prefix_app. split.
    + intros [post H]. exists EmptyString, post. exact H.
    + intros [pre [post H]]. destruct pre; [exists post; exact H|discriminate H].
  - rewrite orb_true_iff, prefix_app, IH. split.
    + intros [[post H]|[pre [post H]]].
      * exists EmptyString, post. exact H.
      * exists (String d pre), post. rewrite H. reflexivity.
    + intros [pre [post H]]. destruct pre as [|c pre].
      * left. exists post. exact H.
      * right. injection H as _ H. exists pre, post. exact H.
Qed.

Section ChatEndpointFacts.
Context {py : PyStr}.
Variable json_dumps : string -> string.
Variable encode_latin1 : string -> outcome string.

Lemma stream_response_result rand chain user_input session_id self :
  result (stream_response rand chain user_input session_id self) = Return tt.
Proof.
  destruct (fst (has_greeted (get_or_create_session_id rand session_id) self)) eqn:Hg.
  - rewrite (stream_response_active rand chain user_input session_id self Hg).
    reflexivity.
  - rewrite (stream_response_greeting rand chain user_input session_id self Hg).
    reflexivity.
Qed.

(** The generator of the streaming response, read to its end. *)
Lemma generate_sse_events_run rand chain user_input session_id self :
  let turn := stream_response rand chain user_input (Some session_id) self in
  generate_sse_events json_dumps rand chain user_input session_id self
  = {| yielded := map (sse_event json_dumps "message") (yielded turn);
       self_after := self_after turn;
       result := Return tt |}.
Proof.
  intros turn. unfold generate_sse_events, try_except, yield_each.
  cbn [result yielded self_after]. fold turn.
  pose proof (stream_response_result rand chain user_input (Some session_id) self) as Hr.
  fold turn in Hr. rewrite Hr. reflexivity.
Qed.

(** The store after a turn on a resolved id: its session is greeted. *)
Lemma turn_greets_resolved_id rand rand' chain user_input session_id self :
  let sid := get_or_create_session_id rand session_id in
  fst (has_greeted sid
         (self_after (stream_response rand' chain user_input (Some sid) self)))
  = true.
Proof.
  intros sid. unfold has_greeted, st_read. cbn [fst].
  rewrite stream_response_sessions.
  assert (Hfix : get_or_create_session_id rand' (Some sid) = sid)
    by apply resolved_id_fixed.
  rewrite Hfix. destruct (decide (sid = sid)) as [_|Hne]; [|congruence].
  destruct (sessions self !! sid) as [session|]; [|reflexivity].
  destruct (Session.greeted session) eqn:Hgr; [|reflexivity].
  destruct (failure chain); exact Hgr.
Qed.

(** X19. Without [text/event-stream] in the [accept] header (or without
    that header) the chat endpoint carries out the turn and then builds
    one JSON document: its message is the fragments of the turn joined in
    order, its session id and the [x-session-id] header are the resolved
    id.  If the resolved id cannot be encoded as a latin-1 header value,
    building the response raises inside the [try]: the endpoint raises
    the 500 error with the text of that exception, although the turn has
    been carried out and the store is the one the turn leaves. *)
Theorem chat_endpoint_json_response
    (service_instances : ServiceInstances) (service : ChatbotService)
    (rand rand' : N) (chain : chain_run) (headers : gmap string string)
    (message : ChatMessage.t) (self : SessionManager) :
  let sid := get_or_create_session_id rand (ChatMessage.session_id message) in
  let turn := stream_response rand' chain (ChatMessage.user_input message)
                (Some sid) self in
  let answer := chat_stream_endpoint json_dumps encode_latin1 service_instances
                  rand rand' chain headers message self in
  chatbot_service service_instances = Some service ->
  (~ exists pre post,
       dict_get headers "accept" "" = (pre ++ "text/event-stream" ++ post)%string) ->
  (forall encoded,
      encode_latin1 sid = Return encoded ->
      answer
      = (Return (JSONResponse
                   (<["message" := String.concat "" (yielded turn)]>
                    (<["session_id" := sid]> ∅))
                   {[ "x-session-id" := sid ]}),
         self_after turn))
  /\ (forall e,
        encode_latin1 sid = Raise e ->
        answer = (Raise (HTTPException 500 (exn_str e)), self_after turn)).
Proof.
  intros sid turn answer Hservice Haccept. subst answer.
  unfold chat_stream_endpoint, init_headers. rewrite Hservice. fold sid.
  destruct (str_contains "text/event-stream" (dict_get headers "accept" "")) eqn:Hc.
  { apply str_contains_spec in Hc. contradiction. }
  fold turn.
  pose proof (stream_response_result rand' chain (ChatMessage.user_input message)
                (Some sid) self) as Hr.
  fold turn in Hr. rewrite Hr.
  split; intros x Hx; rewrite Hx; reflexivity.
Qed.

(** X20. With [text/event-stream] anywhere in the [accept] header the
    endpoint builds the streaming response first.  If the resolved id has
    a latin-1 encoding, the response is a stream of events, one [data:]
    event with the key ["message"] per fragment of the turn, in order,
    and no ["error"] event, with the resolved id in the [x-session-id]
    header.  If it has none, the constructor's exception leaves the
    endpoint before the generator has run: no turn takes place and the
    store is unchanged. *)
Theorem chat_endpoint_event_stream
    (service_instances : ServiceInstances) (service : ChatbotService)
    (rand rand' : N) (chain : chain_run) (headers : gmap string string)
    (message : ChatMessage.t) (self : SessionManager) :
  let sid := get_or_create_session_id rand (ChatMessage.session_id message) in
  let turn := stream_response rand' chain (ChatMessage.user_input message)
                (Some sid) self in
  let answer := chat_stream_endpoint json_dumps encode_latin1 service_instances
                  rand rand' chain headers message self in
  chatbot_service service_instances = Some service ->
  (exists pre post,
     dict_get headers "accept" "" = (pre ++ "text/event-stream" ++ post)%string) ->
  (forall encoded,
      encode_latin1 sid = Return encoded ->
      answer
      = (Return (StreamingResponse
                   (map (sse_event json_dumps "message") (yielded turn))
                   "text/event-stream"
                   (<["x-session-id" := sid]>
                    (<["Cache-Control" := "no-cache"]>
                    (<["Connection" := "keep-alive"]> ∅)))),
         self_after turn))
  /\ (forall e, encode_latin1 sid = Raise e -> answer = (Raise e, self)).
Proof.
  intros sid turn answer Hservice Haccept. subst answer.
  unfold chat_stream_endpoint, init_headers. rewrite Hservice. fold sid.
  apply str_contains_spec in Haccept. rewrite Haccept.
  split; intros x Hx; rewrite Hx; [|reflexivity].
  rewrite generate_sse_events_run. reflexivity.
Qed.

(** X21. Without a registered chatbot service the chat endpoint raises
    the 503 error and leaves the store as it was.  With the service
    registered and a resolved id that has a latin-1 encoding, the request
    is answered in either form, the store is the one the turn leaves, and
    the session named in the [x-session-id] header is stored and marked
    as greeted, so that the next request can continue under that id. *)
Theorem chat_endpoint_answers_and_registers
    (service_instances : ServiceInstances)
    (rand rand' : N) (chain : chain_run) (headers : gmap string string)
    (message : ChatMessage.t) (self : SessionManager) :
  let sid := get_or_create_session_id rand (ChatMessage.session_id message) in
  let answer := chat_stream_endpoint json_dumps encode_latin1 service_instances
                  rand rand' chain headers message self in
  (chatbot_service service_instances = None ->
     answer = (Raise (HTTPException 503 "Servicio no disponible."), self))
  /\ (forall service encoded,
        chatbot_service service_instances = Some service ->
        encode_latin1 sid = Return encoded ->
        (exists response, fst answer = Return response)
        /\ snd answer
           = self_after (stream_response rand' chain (ChatMessage.user_input message)
                           (Some sid) self)
        /\ fst (has_greeted sid (snd answer)) = true).
Proof.
  intros sid answer. subst answer. split.
  - intros Hnone. unfold chat_stream_endpoint. rewrite Hnone. reflexivity.
  - intros service encoded Hservice Henc.
    assert (Hrun : (exists response,
                       fst (chat_stream_endpoint json_dumps encode_latin1
                              service_instances rand rand' chain headers message self)
                       = Return response)
                   /\ snd (chat_stream_endpoint json_dumps encode_latin1
                             service_instances rand rand' chain headers message self)
                      = self_after (stream_response rand' chain
                                      (ChatMessage.user_input message) (Some sid) self)).
    { unfold chat_stream_endpoint, init_headers. rewrite Hservice. fold sid.
      rewrite Henc.
      destruct (str_contains "text/event-stream" (dict_get headers "accept" "")).
      - rewrite generate_sse_events_run. cbn [fst snd self_after yielded].
        split; [eexists; reflexivity|reflexivity].
      - rewrite (stream_response_result rand' chain (ChatMessage.user_input message)
                   (Some sid) self).
        cbn [fst snd]. split; [eexists; reflexivity|reflexivity]. }
    destruct Hrun as [Hfst Hsnd]. split; [exact Hfst|]. split; [exact Hsnd|].
    rewrite Hsnd. apply turn_greets_resolved_id.
Qed.

End ChatEndpointFacts.

Section ValidatorFacts.
Context {py : PyStr}.

(** X22. [validate_user_input] accepts a message exactly when its text
    with the surrounding whitespace removed is not empty, and what it
    hands on is that stripped text; the empty message and the message
    that strips to nothing are rejected with the error. *)
Theorem validate_user_input_strips (v : string) :
  (forall accepted,
      validate_user_input v = Return accepted ->
      accepted = str_strip v /\ accepted <> "" /\ v <> "")
  /\ (validate_user_input v = Raise (Exception "El mensaje no puede estar vacío")
      <-> v = "" \/ str_strip v = "")
  /\ (v <> "" -> str_strip v <> "" -> validate_user_input v = Return (str_strip v)).
Proof.
  unfold validate_user_input.
  destruct v as [|c v]; cbn [str_truthy negb orb].
  - split; [discriminate|]. split; [tauto|congruence].
  - destruct (str_strip (String c v)) as [|d stripped] eqn:Hs; cbn [str_truthy negb].
    + split; [discriminate|]. split; [tauto|congruence].
    + split; [intros accepted [= <-]; repeat split; discriminate|].
      split; [|reflexivity].
      split; [discriminate|]. intros [H|H]; discriminate H.
Qed.

End ValidatorFacts.

(** The bytes of a text all of whose characters are in latin-1 (in the
    UTF-8 text no byte is above 0xC3), and the codec's error otherwise. *)
Lemma chat_endpoint_json_response_witness :
  let encode := fun s : string =>
    if forallb (fun c => (nat_of_ascii c <? 196)%nat) (list_ascii_of_string s)
    then Return s else Raise (Exception "'latin-1' codec can't encode characters") in
  let chat := chat_stream_endpoint (fun s => (dquote ++ s ++ dquote)%string) encode
                (lifespan_started {| llm := fun _ => Return "" |} SessionManager_init)
                0 0 (ChainReturns "") ∅ in
  fst (chat {| ChatMessage.user_input := "Hola, soy Marta";
               ChatMessage.session_id := Some "s" |} SessionManager_init)
  = Return (JSONResponse
              (<["message" := "¡Hola Marta! ¿En qué puedo ayudarte hoy?"]>
               (<["session_id" := "s"]> ∅))
              {[ "x-session-id" := "s" ]})
  /\ chat {| ChatMessage.user_input := "Hola, soy Marta";
             ChatMessage.session_id := Some "中" |} SessionManager_init
     = (Raise (HTTPException 500 "'latin-1' codec can't encode characters"),
        snd (mark_as_greeted "中" SessionManager_init)).
Proof.
  intros encode chat.
  assert (Haccept : ~ exists pre post,
             dict_get (∅ : gmap string string) "accept" ""
             = (pre ++ "text/event-stream" ++ post)%string).
  { intros [pre [post H]]. destruct pre; discriminate H. }
  split.
  - subst chat.
    rewrite (proj1 (chat_endpoint_json_response
               (fun s => (dquote ++ s ++ dquote)%string) encode
               (lifespan_started {| llm := fun _ => Return "" |} SessionManager_init)
               {| llm := fun _ => Return "" |} 0 0 (ChainReturns "") ∅
               {| ChatMessage.user_input := "Hola, soy Marta";
                  ChatMessage.session_id := Some "s" |}
               SessionManager_init eq_refl Haccept) "s" eq_refl).
    reflexivity.
  - subst chat.
    rewrite (proj2 (chat_endpoint_json_response
               (fun s => (dquote ++ s ++ dquote)%string) encode
               (lifespan_started {| llm := fun _ => Return "" |} SessionManager_init)
               {| llm := fun _ => Return "" |} 0 0 (ChainReturns "") ∅
               {| ChatMessage.user_input := "Hola, soy Marta";
                  ChatMessage.session_id := Some "中" |}
               SessionManager_init eq_refl Haccept)
               (Exception "'latin-1' codec can't encode characters") eq_refl).
    vm_compute. reflexivity.
Defined.

Lemma chat_endpoint_event_stream_witness :
  let encode := fun s : string =>
    if forallb (fun c => (nat_of_ascii c <? 196)%nat) (list_ascii_of_string s)
    then Return s else Raise (Exception "'latin-1' codec can't encode characters") in
  let headers : gmap string string := {[ "accept" := "text/event-stream" ]} in
  let chat := chat_stream_endpoint (fun s => (dquote ++ s ++ dquote)%string) encode
                (lifespan_started {| llm := fun _ => Return "" |} SessionManager_init)
                0 0 (ChainReturns "") headers in
  (exists content media_type response_headers,
     fst (chat {| ChatMessage.user_input := "Hola";
                  ChatMessage.session_id := Some "s" |} SessionManager_init)
     = Return (StreamingResponse content media_type response_headers)
     /\ length content = 1)
  /\ chat {| ChatMessage.user_input := "Hola";
             ChatMessage.session_id := Some "中" |} SessionManager_init
     = (Raise (Exception "'latin-1' codec can't encode characters"),
        SessionManager_init).
Proof.
  intros encode headers chat.
  assert (Haccept : exists pre post,
             dict_get headers "accept" ""
             = (pre ++ "text/event-stream" ++ post)%string).
  { exists EmptyString, EmptyString. reflexivity. }
  split.
  - subst chat.
    rewrite (proj1 (chat_endpoint_event_stream
               (fun s => (dquote ++ s ++ dquote)%string) encode
               (lifespan_started {| llm := fun _ => Return "" |} SessionManager_init)
               {| llm := fun _ => Return "" |} 0 0 (ChainReturns "") headers
               {| ChatMessage.user_input := "Hola"; ChatMessage.session_id := Some "s" |}
               SessionManager_init eq_refl Haccept) "s" eq_refl).
    do 3 eexists. split; reflexivity.
  - subst chat.
    exact (proj2 (chat_endpoint_event_stream
               (fun s => (dquote ++ s ++ dquote)%string) encode
               (lifespan_started {| llm := fun _ => Return "" |} SessionManager_init)
               {| llm := fun _ => Return "" |} 0 0 (ChainReturns "") headers
               {| ChatMessage.user_input := "Hola"; ChatMessage.session_id := Some "中" |}
               SessionManager_init eq_refl Haccept)
               (Exception "'latin-1' codec can't encode characters") eq_refl).
Defined.

Lemma chat_endpoint_answers_and_registers_witness :
  let message := {| ChatMessage.user_input := "Hola"; ChatMessage.session_id := None |} in
  let answer := chat_stream_endpoint (fun s => (dquote ++ s ++ dquote)%string)
                  (fun s => Return s)
                  (lifespan_started {| llm := fun _ => Return "" |} SessionManager_init)
                  0 0 (ChainReturns "") ∅ message SessionManager_init in
  fst (has_greeted "00000000-0000-4000-8000-000000000000" (snd answer)) = true.
Proof.
  intros message answer.
  exact (proj2 (proj2 (proj2 (chat_endpoint_answers_and_registers
           (fun s => (dquote ++ s ++ dquote)%string) (fun s => Return s)
           (lifespan_started {| llm := fun _ => Return "" |} SessionManager_init)
           0 0 (ChainReturns "") ∅ message SessionManager_init)
           {| llm := fun _ => Return "" |}
           "00000000-0000-4000-8000-000000000000" eq_refl eq_refl))).
Defined.

Lemma validate_user_input_strips_witness :
  validate_user_input "  hola  " = Return "hola"
  /\ validate_user_input "   " = Raise (Exception "El mensaje no puede estar vacío").
Proof.
  split.
  - change (validate_user_input "  hola  " = Return (str_strip "  hola  ")).
    apply (proj2 (proj2 (validate_user_input_strips "  hola  "))); discriminate.
  - apply (proj1 (proj2 (validate_user_input_strips "   "))). right. reflexivity.
Defined.

Lemma greeting_is_given_once_witness :
  let chain := ChainReturns "Respira" in
  let self := snd (mark_as_greeted "a" SessionManager_init) in
  let self' := self_after (stream_response 0 chain "Hola" (Some "b") self) in
  fst (has_greeted "a" self') = true
  /\ yielded (stream_response 0 chain "estoy triste" (Some "b") self') = ["Respira"].
Proof.
  intros chain self self'.
  destruct (greeting_is_given_once 0 0 chain chain "Hola" "estoy triste"
              (Some "b") self) as (_ & Hkeep & Hnext).
  split; [exact (Hkeep "a" eq_refl)|exact Hnext].
Defined.
